(** * common-fate/observability: the telemetry launcher

    A shallow embedding of [launcher/launcher.go] and [pipelines/trace.go]:
    configuration validation, the resource builder, propagator composition,
    the trace pipeline factory, and the launcher with its shutdown walk.

    The Go code talks to the OpenTelemetry SDK, to the operating system and
    to a logger.  Those collaborators are not part of the repository; they
    appear here as a record of oracles ([Collaborators]) and as a [World]
    that holds the process-wide registration points of the SDK, the log, and
    the sequence of collaborator calls made so far. *)

From Stdlib Require Import List String Ascii Bool Arith ZArith Lia Permutation.
Import ListNotations.
Local Open Scope string_scope.
Local Open Scope list_scope.

(** ** Strings and errors *)

(** Go's [len(s) == 0] on a string. *)
Definition len0 (s : string) : bool := Nat.eqb (String.length s) 0.

(** A Go [error] value is represented by its message; [nil] is [None]. *)
Definition error := string.

(** [context.Context]: the background context or one supplied by the caller. *)
Inductive Context : Type :=
| Background
| CallerContext (id : nat).

(** A Go [map[string]string], given by its entries in the order in which a
    [range] statement visits them.  Go leaves that order unspecified, so a
    statement quantified over every list covers every order.  The keys of a
    map are distinct ([map_wf]). *)
Definition GoMap := list (string * string).

Definition map_wf (m : GoMap) : Prop := NoDup (map fst m).

(** [m[k] = v] *)
Fixpoint map_set (k v : string) (m : GoMap) : GoMap :=
  match m with
  | [] => [(k, v)]
  | (k', v') :: rest =>
      if String.eqb k' k then (k, v) :: rest else (k', v') :: map_set k v rest
  end.

(** ** Attributes and resources (OpenTelemetry SDK) *)

(** [attribute.KeyValue]; every attribute this code reads or writes carries a
    string value. *)
Record KeyValue := KV { Key : string; Value : string }.

(** [attribute.String(k, v)] *)
Definition attribute_String (k v : string) : KeyValue := KV k v.

Module semconv.
Definition AttributeHostName := "host.name".
Definition AttributeServiceName := "service.name".
Definition AttributeServiceVersion := "service.version".
Definition AttributeTelemetrySDKName := "telemetry.sdk.name".
Definition AttributeTelemetrySDKLanguage := "telemetry.sdk.language".
Definition AttributeTelemetrySDKVersion := "telemetry.sdk.version".
End semconv.

(** [resource.Resource]: the attributes as [Attributes()] returns them. *)
Record Resource := mkResource { attrs : list KeyValue }.

(** [Attributes] of a [Resource] pointer; the method accepts the nil receiver. *)
Definition Attributes (r : option Resource) : list KeyValue :=
  match r with
  | Some r => attrs r
  | None => []
  end.

(** The SDK keeps a resource's attributes as an [attribute.Set]: keys are
    distinct. *)
Definition resource_wf (r : option Resource) : Prop :=
  NoDup (map Key (Attributes r)).

(** [attribute.NewSet] as the SDK documents it: entries whose key is empty
    are dropped, of several entries with one key the last one is kept, and
    the result is ordered by key. *)
Definition has_key (k : string) (l : list KeyValue) : bool :=
  existsb (fun kv => String.eqb (Key kv) k) l.

Fixpoint last_wins (l : list KeyValue) : list KeyValue :=
  match l with
  | [] => []
  | kv :: rest =>
      if has_key (Key kv) rest then last_wins rest else kv :: last_wins rest
  end.

Fixpoint insert_by_key (kv : KeyValue) (l : list KeyValue) : list KeyValue :=
  match l with
  | [] => [kv]
  | kv' :: rest =>
      if String.leb (Key kv) (Key kv') then kv :: kv' :: rest
      else kv' :: insert_by_key kv rest
  end.

Definition sort_by_key (l : list KeyValue) : list KeyValue :=
  fold_right insert_by_key [] l.

Definition Valid (kv : KeyValue) : bool := negb (len0 (Key kv)).

(** [resource.New(ctx, WithSchemaURL(..), WithAttributes(attributes...))] *)
Definition resource_New (attributes : list KeyValue) : Resource :=
  mkResource (sort_by_key (last_wins (filter Valid attributes))).

(** The value a resource holds for a key. *)
Definition resource_get (r : option Resource) (k : string) : option string :=
  option_map Value (find (fun kv => String.eqb (Key kv) k) (Attributes r)).

(** ** Propagators, exporters, processors, providers *)

(** The four propagation codecs of the table in [configurePropagators]. *)
Inductive TextMapPropagator : Type :=
| B3MultipleHeader
| Baggage
| TraceContext
| OT.

(** [*otlptrace.Exporter], identified by what it was built from. *)
Record Exporter := mkExporter {
  exp_endpoint : string;
  exp_insecure : bool;
  exp_headers : option GoMap
}.

(** [trace.NewBatchSpanProcessor(exporter, trace.WithBatchTimeout(t))] *)
Record BatchSpanProcessor := mkBSP {
  bsp_exporter : Exporter;
  bsp_timeout : Z
}.

(** [trace.NewTracerProvider(WithSampler(AlwaysSample()), WithSpanProcessor(bsp),
    WithResource(r))] *)
Record TracerProvider := mkTP {
  tp_processor : BatchSpanProcessor;
  tp_resource : option Resource
}.

(** [otel.ErrorHandler] *)
Inductive ErrorHandler : Type :=
| defaultHandler
| CallerHandler (id : nat).

(** ** Configuration *)

(** [pipelines.PipelineConfig] *)
Module PipelineConfig.
Record t := mk {
  Endpoint : string;
  Insecure : bool;
  Headers : option GoMap;
  Resource : option Resource;
  ReportingPeriod : string;
  BatchTimeout : Z;
  Propagators : list string
}.
End PipelineConfig.

(** [launcher.Config].  The [logger] field is left out: what the logger
    writes goes to the [log] of the [World]. *)
Module Config.
Record t := mk {
  SpanExporterEndpoint : string;
  SpanExporterEndpointInsecure : bool;
  ServiceName : string;
  ServiceVersion : string;
  Headers : option GoMap;
  MetricExporterEndpoint : string;
  MetricExporterEndpointInsecure : bool;
  MetricsEnabled : bool;
  LogLevel : string;
  Propagators : list string;
  MetricReportingPeriod : string;
  BatchTimeout : Z;
  resourceAttributes : GoMap;
  Resource : option Resource;
  errorHandler : option ErrorHandler;
  context : Context
}.
End Config.

(** ** The world outside the launcher *)

(** The handle of a running metrics pipeline. *)
Definition MetricsPipeline := nat.

(** Calls into the collaborators that create or close a pipeline. *)
Inductive Call : Type :=
| Call_newTraceExporter (ctx : Context) (e : Exporter)
| Call_NewMetricsPipeline (ctx : Context) (c : PipelineConfig.t)
| Call_bsp_Shutdown (bsp : BatchSpanProcessor) (ctx : Context)
| Call_spanExporter_Shutdown (e : Exporter) (ctx : Context)
| Call_metrics_shutdown (p : MetricsPipeline) (ctx : Context).

Inductive Level : Type := DebugLevel | FatalLevel.

Record World := mkWorld {
  (** [otel.SetTracerProvider] *)
  globalTracerProvider : option TracerProvider;
  (** [otel.SetTextMapPropagator], a composite over the listed codecs *)
  globalTextMapPropagator : option (list TextMapPropagator);
  (** [otel.SetErrorHandler] *)
  globalErrorHandler : option ErrorHandler;
  (** what the logger has written, oldest first *)
  log : list (Level * string);
  (** the collaborator calls made so far, oldest first *)
  calls : list Call
}.

(** What the collaborators answer.  An answer may depend on the calls made
    before it (a second close of an exporter need not answer as the first).

    Two parts of the repository are not among the sources and are taken as
    they are found here: the constant [version] of package [launcher], and
    [pipelines.NewMetricsPipeline], of which only the call in [setupMetrics]
    is known: it answers with a shutdown function, an error, or neither. *)
Record Collaborators := mkCollaborators {
  version : string;
  (** [envconfig.Process(ctx, &c)]: the decoded configuration and the error *)
  envconfig_Process : Config.t * option error;
  (** [resource.Environment()] *)
  resource_Environment : Resource;
  (** [os.Hostname()] *)
  os_Hostname : string * option error;
  (** [otlptrace.New(ctx, otlptracegrpc.NewClient(..))] *)
  otlptrace_New : Context -> Exporter -> list Call -> option error;
  NewMetricsPipeline_result :
    Context -> PipelineConfig.t -> list Call -> option MetricsPipeline * option error;
  bsp_Shutdown : BatchSpanProcessor -> Context -> list Call -> option error;
  spanExporter_Shutdown : Exporter -> Context -> list Call -> option error;
  metrics_shutdown : MetricsPipeline -> Context -> list Call -> option error
}.

(** ** The monad of the embedding

    A computation runs in a world and either returns a value and a new
    world, or ends the process: [Fatal] and [Fatalf] of the zap logger write
    the entry and call [os.Exit(1)]. *)
Inductive Outcome (A : Type) : Type :=
| Ret (a : A) (w : World)
| Exit (msg : string) (w : World).
Arguments Ret {A} a w.
Arguments Exit {A} msg w.

Definition M (A : Type) : Type := World -> Outcome A.

(** The world in which a computation ends, returned or not. *)
Definition final_world {A} (o : Outcome A) : World :=
  match o with
  | Ret _ w => w
  | Exit _ w => w
  end.

Definition ret {A} (a : A) : M A := fun w => Ret a w.

Definition bind {A B} (m : M A) (k : A -> M B) : M B :=
  fun w =>
    match m w with
    | Ret a w' => k a w'
    | Exit msg w' => Exit msg w'
    end.

Notation "x <- m ;; k" := (bind m (fun x => k))
  (at level 61, m at next level, right associativity).
Notation "m ;;; k" := (bind m (fun _ => k))
  (at level 61, right associativity).

Definition add_log (l : Level) (msg : string) (w : World) : World :=
  mkWorld (globalTracerProvider w) (globalTextMapPropagator w)
          (globalErrorHandler w) (log w ++ [(l, msg)]) (calls w).

Definition add_call (c : Call) (w : World) : World :=
  mkWorld (globalTracerProvider w) (globalTextMapPropagator w)
          (globalErrorHandler w) (log w) (calls w ++ [c]).

Definition Debug (msg : string) : M unit :=
  fun w => Ret tt (add_log DebugLevel msg w).

Definition Fatal {A} (msg : string) : M A :=
  fun w => Exit msg (add_log FatalLevel msg w).

(** A call into a collaborator: its answer is taken at the calls made so
    far, and the call is recorded. *)
Definition call {A} (c : Call) (answer : list Call -> A) : M A :=
  fun w => Ret (answer (calls w)) (add_call c w).

Definition otel_SetTracerProvider (tp : TracerProvider) : M unit :=
  fun w => Ret tt (mkWorld (Some tp) (globalTextMapPropagator w)
                           (globalErrorHandler w) (log w) (calls w)).

Definition otel_SetTextMapPropagator (ps : list TextMapPropagator) : M unit :=
  fun w => Ret tt (mkWorld (globalTracerProvider w) (Some ps)
                           (globalErrorHandler w) (log w) (calls w)).

Definition otel_SetErrorHandler (h : ErrorHandler) : M unit :=
  fun w => Ret tt (mkWorld (globalTracerProvider w) (globalTextMapPropagator w)
                           (Some h) (log w) (calls w)).

(** ** Package pipelines ([pipelines/trace.go]) *)

(** The table of [configurePropagators]. *)
Definition propagatorsMap : list (string * TextMapPropagator) :=
  [("b3", B3MultipleHeader);
   ("baggage", Baggage);
   ("tracecontext", TraceContext);
   ("ottrace", OT)].

(** [m[key]] on a table; [None] is the nil interface value of a missing key. *)
Fixpoint lookup {V} (m : list (string * V)) (key : string) : option V :=
  match m with
  | [] => None
  | (k, v) :: rest => if String.eqb k key then Some v else lookup rest key
  end.

(** The [for _, key := range c.Propagators] loop: the codecs of the keys the
    table knows, in the order of the keys. *)
Definition collect_propagators (keys : list string) : list TextMapPropagator :=
  fold_left
    (fun props key =>
       match lookup propagatorsMap key with
       | Some prop => props ++ [prop]
       | None => props
       end)
    keys [].

Definition unsupported_propagators : error :=
  "invalid configuration: unsupported propagators. Supported options: b3,baggage,tracecontext,ottrace".

Definition configurePropagators (c : PipelineConfig.t) : M (option error) :=
  let props := collect_propagators (PipelineConfig.Propagators c) in
  if Nat.eqb (List.length props) 0 then ret (Some unsupported_propagators)
  else otel_SetTextMapPropagator props ;;; ret None.

(** A shutdown function, [func(context.Context) error].  The launcher only
    ever holds the two closures that the pipeline factories return; each is
    given by the variables it captures, and [invoke] runs its body. *)
Inductive ShutdownFunc : Type :=
| TraceShutdown (bsp : BatchSpanProcessor) (spanExporter : Exporter)
| MetricsShutdown (p : MetricsPipeline).

Section Pipelines.
Variable X : Collaborators.

Definition newTraceExporter (ctx : Context) (endpoint : string)
    (insecure : bool) (headers : option GoMap) : M (Exporter * option error) :=
  let e := mkExporter endpoint insecure headers in
  call (Call_newTraceExporter ctx e) (fun h => (e, otlptrace_New X ctx e h)).

Definition invoke (f : ShutdownFunc) (ctx : Context) : M (option error) :=
  match f with
  | TraceShutdown bsp spanExporter =>
      _ <- call (Call_bsp_Shutdown bsp ctx) (bsp_Shutdown X bsp ctx) ;;
      call (Call_spanExporter_Shutdown spanExporter ctx)
           (spanExporter_Shutdown X spanExporter ctx)
  | MetricsShutdown p =>
      call (Call_metrics_shutdown p ctx) (metrics_shutdown X p ctx)
  end.

Definition NewTracePipeline (ctx : Context) (c : PipelineConfig.t)
    : M (option ShutdownFunc * option error) :=
  r <- newTraceExporter ctx (PipelineConfig.Endpoint c)
         (PipelineConfig.Insecure c) (PipelineConfig.Headers c) ;;
  let spanExporter := fst r in
  match snd r with
  | Some err => ret (None, Some ("failed to create span exporter: " ++ err)%string)
  | None =>
      let bsp := mkBSP spanExporter (PipelineConfig.BatchTimeout c) in
      let tp := mkTP bsp (PipelineConfig.Resource c) in
      err <- configurePropagators c ;;
      match err with
      | Some err => ret (None, Some err)
      | None =>
          otel_SetTracerProvider tp ;;;
          ret (Some (TraceShutdown bsp spanExporter), None)
      end
  end.

(** [pipelines.NewMetricsPipeline], known by its call only. *)
Definition NewMetricsPipeline (ctx : Context) (c : PipelineConfig.t)
    : M (option ShutdownFunc * option error) :=
  call (Call_NewMetricsPipeline ctx c)
       (fun h =>
          let r := NewMetricsPipeline_result X ctx c h in
          (option_map MetricsShutdown (fst r), snd r)).
End Pipelines.

(** ** Package launcher ([launcher/launcher.go]) *)

Definition Option := Config.t -> Config.t.

Definition validateConfiguration (c : Config.t) : option error :=
  if len0 (Config.ServiceName c) then
    let serviceNameSet :=
      (fix scan (l : list KeyValue) : bool :=
         match l with
         | [] => false
         | kv :: rest =>
             if String.eqb (Key kv) semconv.AttributeServiceName
             then negb (len0 (Value kv))
             else scan rest
         end) (Attributes (Config.Resource c)) in
    if negb serviceNameSet then
      Some "invalid configuration: service name missing. Configure WithServiceName in code"
    else None
  else None.

(** Assignments to the fields of a [Config]. *)
Definition set_SpanExporterEndpoint (v : string) (c : Config.t) : Config.t :=
  Config.mk v (Config.SpanExporterEndpointInsecure c) (Config.ServiceName c)
    (Config.ServiceVersion c) (Config.Headers c) (Config.MetricExporterEndpoint c)
    (Config.MetricExporterEndpointInsecure c) (Config.MetricsEnabled c)
    (Config.LogLevel c) (Config.Propagators c) (Config.MetricReportingPeriod c)
    (Config.BatchTimeout c) (Config.resourceAttributes c) (Config.Resource c)
    (Config.errorHandler c) (Config.context c).

Definition set_SpanExporterEndpointInsecure (v : bool) (c : Config.t) : Config.t :=
  Config.mk (Config.SpanExporterEndpoint c) v (Config.ServiceName c)
    (Config.ServiceVersion c) (Config.Headers c) (Config.MetricExporterEndpoint c)
    (Config.MetricExporterEndpointInsecure c) (Config.MetricsEnabled c)
    (Config.LogLevel c) (Config.Propagators c) (Config.MetricReportingPeriod c)
    (Config.BatchTimeout c) (Config.resourceAttributes c) (Config.Resource c)
    (Config.errorHandler c) (Config.context c).

Definition set_ServiceName (v : string) (c : Config.t) : Config.t :=
  Config.mk (Config.SpanExporterEndpoint c) (Config.SpanExporterEndpointInsecure c) v
    (Config.ServiceVersion c) (Config.Headers c) (Config.MetricExporterEndpoint c)
    (Config.MetricExporterEndpointInsecure c) (Config.MetricsEnabled c)
    (Config.LogLevel c) (Config.Propagators c) (Config.MetricReportingPeriod c)
    (Config.BatchTimeout c) (Config.resourceAttributes c) (Config.Resource c)
    (Config.errorHandler c) (Config.context c).

Definition set_ServiceVersion (v : string) (c : Config.t) : Config.t :=
  Config.mk (Config.SpanExporterEndpoint c) (Config.SpanExporterEndpointInsecure c)
    (Config.ServiceName c) v (Config.Headers c) (Config.MetricExporterEndpoint c)
    (Config.MetricExporterEndpointInsecure c) (Config.MetricsEnabled c)
    (Config.LogLevel c) (Config.Propagators c) (Config.MetricReportingPeriod c)
    (Config.BatchTimeout c) (Config.resourceAttributes c) (Config.Resource c)
    (Config.errorHandler c) (Config.context c).

Definition set_Headers (v : option GoMap) (c : Config.t) : Config.t :=
  Config.mk (Config.SpanExporterEndpoint c) (Config.SpanExporterEndpointInsecure c)
    (Config.ServiceName c) (Config.ServiceVersion c) v (Config.MetricExporterEndpoint c)
    (Config.MetricExporterEndpointInsecure c) (Config.MetricsEnabled c)
    (Config.LogLevel c) (Config.Propagators c) (Config.MetricReportingPeriod c)
    (Config.BatchTimeout c) (Config.resourceAttributes c) (Config.Resource c)
    (Config.errorHandler c) (Config.context c).

Definition set_MetricExporterEndpoint (v : string) (c : Config.t) : Config.t :=
  Config.mk (Config.SpanExporterEndpoint c) (Config.SpanExporterEndpointInsecure c)
    (Config.ServiceName c) (Config.ServiceVersion c) (Config.Headers c) v
    (Config.MetricExporterEndpointInsecure c) (Config.MetricsEnabled c)
    (Config.LogLevel c) (Config.Propagators c) (Config.MetricReportingPeriod c)
    (Config.BatchTimeout c) (Config.resourceAttributes c) (Config.Resource c)
    (Config.errorHandler c) (Config.context c).

Definition set_MetricExporterEndpointInsecure (v : bool) (c : Config.t) : Config.t :=
  Config.mk (Config.SpanExporterEndpoint c) (Config.SpanExporterEndpointInsecure c)
    (Config.ServiceName c) (Config.ServiceVersion c) (Config.Headers c)
    (Config.MetricExporterEndpoint c) v (Config.MetricsEnabled c)
    (Config.LogLevel c) (Config.Propagators c) (Config.MetricReportingPeriod c)
    (Config.BatchTimeout c) (Config.resourceAttributes c) (Config.Resource c)
    (Config.errorHandler c) (Config.context c).

Definition set_MetricsEnabled (v : bool) (c : Config.t) : Config.t :=
  Config.mk (Config.SpanExporterEndpoint c) (Config.SpanExporterEndpointInsecure c)
    (Config.ServiceName c) (Config.ServiceVersion c) (Config.Headers c)
    (Config.MetricExporterEndpoint c) (Config.MetricExporterEndpointInsecure c) v
    (Config.LogLevel c) (Config.Propagators c) (Config.MetricReportingPeriod c)
    (Config.BatchTimeout c) (Config.resourceAttributes c) (Config.Resource c)
    (Config.errorHandler c) (Config.context c).

Definition set_LogLevel (v : string) (c : Config.t) : Config.t :=
  Config.mk (Config.SpanExporterEndpoint c) (Config.SpanExporterEndpointInsecure c)
    (Config.ServiceName c) (Config.ServiceVersion c) (Config.Headers c)
    (Config.MetricExporterEndpoint c) (Config.MetricExporterEndpointInsecure c)
    (Config.MetricsEnabled c) v (Config.Propagators c) (Config.MetricReportingPeriod c)
    (Config.BatchTimeout c) (Config.resourceAttributes c) (Config.Resource c)
    (Config.errorHandler c) (Config.context c).

Definition set_Propagators (v : list string) (c : Config.t) : Config.t :=
  Config.mk (Config.SpanExporterEndpoint c) (Config.SpanExporterEndpointInsecure c)
    (Config.ServiceName c) (Config.ServiceVersion c) (Config.Headers c)
    (Config.MetricExporterEndpoint c) (Config.MetricExporterEndpointInsecure c)
    (Config.MetricsEnabled c) (Config.LogLevel c) v (Config.MetricReportingPeriod c)
    (Config.BatchTimeout c) (Config.resourceAttributes c) (Config.Resource c)
    (Config.errorHandler c) (Config.context c).

Definition set_BatchTimeout (v : Z) (c : Config.t) : Config.t :=
  Config.mk (Config.SpanExporterEndpoint c) (Config.SpanExporterEndpointInsecure c)
    (Config.ServiceName c) (Config.ServiceVersion c) (Config.Headers c)
    (Config.MetricExporterEndpoint c) (Config.MetricExporterEndpointInsecure c)
    (Config.MetricsEnabled c) (Config.LogLevel c) (Config.Propagators c)
    (Config.MetricReportingPeriod c) v (Config.resourceAttributes c)
    (Config.Resource c) (Config.errorHandler c) (Config.context c).

Definition set_resourceAttributes (v : GoMap) (c : Config.t) : Config.t :=
  Config.mk (Config.SpanExporterEndpoint c) (Config.SpanExporterEndpointInsecure c)
    (Config.ServiceName c) (Config.ServiceVersion c) (Config.Headers c)
    (Config.MetricExporterEndpoint c) (Config.MetricExporterEndpointInsecure c)
    (Config.MetricsEnabled c) (Config.LogLevel c) (Config.Propagators c)
    (Config.MetricReportingPeriod c) (Config.BatchTimeout c) v
    (Config.Resource c) (Config.errorHandler c) (Config.context c).

Definition set_Resource (v : option Resource) (c : Config.t) : Config.t :=
  Config.mk (Config.SpanExporterEndpoint c) (Config.SpanExporterEndpointInsecure c)
    (Config.ServiceName c) (Config.ServiceVersion c) (Config.Headers c)
    (Config.MetricExporterEndpoint c) (Config.MetricExporterEndpointInsecure c)
    (Config.MetricsEnabled c) (Config.LogLevel c) (Config.Propagators c)
    (Config.MetricReportingPeriod c) (Config.BatchTimeout c)
    (Config.resourceAttributes c) v (Config.errorHandler c) (Config.context c).

Definition set_errorHandler (v : option ErrorHandler) (c : Config.t) : Config.t :=
  Config.mk (Config.SpanExporterEndpoint c) (Config.SpanExporterEndpointInsecure c)
    (Config.ServiceName c) (Config.ServiceVersion c) (Config.Headers c)
    (Config.MetricExporterEndpoint c) (Config.MetricExporterEndpointInsecure c)
    (Config.MetricsEnabled c) (Config.LogLevel c) (Config.Propagators c)
    (Config.MetricReportingPeriod c) (Config.BatchTimeout c)
    (Config.resourceAttributes c) (Config.Resource c) v (Config.context c).

Definition set_context (v : Context) (c : Config.t) : Config.t :=
  Config.mk (Config.SpanExporterEndpoint c) (Config.SpanExporterEndpointInsecure c)
    (Config.ServiceName c) (Config.ServiceVersion c) (Config.Headers c)
    (Config.MetricExporterEndpoint c) (Config.MetricExporterEndpointInsecure c)
    (Config.MetricsEnabled c) (Config.LogLevel c) (Config.Propagators c)
    (Config.MetricReportingPeriod c) (Config.BatchTimeout c)
    (Config.resourceAttributes c) (Config.Resource c) (Config.errorHandler c) v.

(** The options.  [WithMetricReportingPeriod] formats a duration with
    [fmt.Sprint] and is not needed below. *)
Definition WithMetricExporterEndpoint (url : string) : Option :=
  set_MetricExporterEndpoint url.
Definition WithSpanExporterEndpoint (url : string) : Option :=
  set_SpanExporterEndpoint url.
Definition WithServiceName (name : string) : Option := set_ServiceName name.
Definition WithServiceVersion (v : string) : Option := set_ServiceVersion v.
Definition WithHeaders (headers : GoMap) : Option :=
  fun c =>
    let h := match Config.Headers c with Some h => h | None => [] end in
    set_Headers (Some (fold_left (fun m kv => map_set (fst kv) (snd kv) m) headers h)) c.
Definition WithLogLevel (loglevel : string) : Option := set_LogLevel loglevel.
Definition WithSpanExporterInsecure (insecure : bool) : Option :=
  set_SpanExporterEndpointInsecure insecure.
Definition WithMetricExporterInsecure (insecure : bool) : Option :=
  set_MetricExporterEndpointInsecure insecure.
Definition WithResourceAttributes (attributes : GoMap) : Option :=
  set_resourceAttributes attributes.
Definition WithPropagators (propagators : list string) : Option :=
  set_Propagators propagators.
Definition WithErrorHandler (handler : option ErrorHandler) : Option :=
  set_errorHandler handler.
Definition WithMetricsEnabled (enabled : bool) : Option :=
  set_MetricsEnabled enabled.
Definition WithBatchTimeout (timeout : Z) : Option := set_BatchTimeout timeout.
Definition WithContext (ctx : Context) : Option := set_context ctx.

Record Launcher := mkLauncher {
  config : Config.t;
  shutdownFuncs : list ShutdownFunc
}.

Definition dquote : string := String "034"%char EmptyString.

Definition hostname_hint (err : error) : string :=
  ("unable to set host.name. Set OTEL_RESOURCE_ATTRIBUTES=" ++ dquote
   ++ "host.name=<your_host_name>" ++ dquote
   ++ " env var or configure WithResourceAttributes in code: " ++ err)%string.

(** The [pipelines.PipelineConfig] literal of [setupTracing]; the fields it
    does not name keep their zero value. *)
Definition tracePipelineConfig (c : Config.t) : PipelineConfig.t :=
  PipelineConfig.mk (Config.SpanExporterEndpoint c)
    (Config.SpanExporterEndpointInsecure c) (Config.Headers c)
    (Config.Resource c) "" (Config.BatchTimeout c) (Config.Propagators c).

(** The [pipelines.PipelineConfig] literal of [setupMetrics]. *)
Definition metricsPipelineConfig (c : Config.t) : PipelineConfig.t :=
  PipelineConfig.mk (Config.MetricExporterEndpoint c)
    (Config.MetricExporterEndpointInsecure c) (Config.Headers c)
    (Config.Resource c) (Config.MetricReportingPeriod c)
    (Config.BatchTimeout c) [].

(** [if c.Headers == nil { c.Headers = map[string]string{} }] *)
Definition default_Headers (c : Config.t) : Config.t :=
  match Config.Headers c with
  | None => set_Headers (Some []) c
  | Some _ => c
  end.

Section Launcher.
Variable X : Collaborators.

(** The first loop of [newResource]: is a non-empty host name among the
    attributes of the environment? *)
Definition scan_hostname (l : list KeyValue) : bool :=
  fold_left
    (fun hostnameSet kv =>
       if String.eqb (Key kv) semconv.AttributeHostName && negb (len0 (Value kv))
       then true else hostnameSet)
    l false.

(** The loop over [c.resourceAttributes]; the state is the pair of
    [hostnameSet] and [attributes]. *)
Definition add_resourceAttributes (m : GoMap)
    (st : bool * list KeyValue) : bool * list KeyValue :=
  fold_left
    (fun st kv =>
       let key := fst kv in
       let value := snd kv in
       if negb (len0 value) then
         ((if String.eqb key semconv.AttributeHostName then true else fst st),
          snd st ++ [attribute_String key value])
       else st)
    m st.

(** [newResource] up to the slice that it hands to [resource.New]. *)
Definition newResource_attributes (c : Config.t) : M (list KeyValue) :=
  let r := resource_Environment X in
  let hostnameSet := scan_hostname (attrs r) in
  let attributes :=
    [attribute_String semconv.AttributeTelemetrySDKName "cfobservability";
     attribute_String semconv.AttributeTelemetrySDKLanguage "go";
     attribute_String semconv.AttributeTelemetrySDKVersion (version X)] in
  let attributes :=
    if negb (len0 (Config.ServiceName c))
    then attributes ++ [attribute_String semconv.AttributeServiceName (Config.ServiceName c)]
    else attributes in
  let attributes :=
    if negb (len0 (Config.ServiceVersion c))
    then attributes ++ [attribute_String semconv.AttributeServiceVersion (Config.ServiceVersion c)]
    else attributes in
  let st := add_resourceAttributes (Config.resourceAttributes c) (hostnameSet, attributes) in
  let hostnameSet := fst st in
  let attributes := snd st in
  attributes <-
    (if negb hostnameSet then
       match os_Hostname X with
       | (_, Some err) => Debug (hostname_hint err) ;;; ret attributes
       | (hostname, None) =>
           ret (attributes ++ [attribute_String semconv.AttributeHostName hostname])
       end
     else ret attributes) ;;
  ret (attrs r ++ attributes).

Definition newResource (c : Config.t) : M Resource :=
  attributes <- newResource_attributes c ;;
  ret (resource_New attributes).

Definition newConfig (opts : list Option) : M Config.t :=
  let c := fst (envconfig_Process X) in
  let envError := snd (envconfig_Process X) in
  let c := set_BatchTimeout (5 * 1000000000) c in
  let c := set_context Background c in
  let c := set_errorHandler (Some defaultHandler) c in
  let c := fold_left (fun c opt => opt c) opts c in
  r <- newResource c ;;
  let c := set_Resource (Some r) c in
  match envError with
  | Some e => Fatal e
  | None => ret c
  end.

Definition setupFunc := Config.t -> M (option ShutdownFunc * option error).

Definition setupTracing : setupFunc :=
  fun c =>
    if String.eqb (Config.SpanExporterEndpoint c) "" then
      Debug "tracing is disabled by configuration: no endpoint set" ;;;
      ret (None, None)
    else
      NewTracePipeline X (Config.context c) (tracePipelineConfig c).

Definition setupMetrics : setupFunc :=
  fun c =>
    if negb (Config.MetricsEnabled c) then
      Debug "metrics are disabled by configuration: no endpoint set" ;;;
      ret (None, None)
    else
      NewMetricsPipeline X (Config.context c) (metricsPipelineConfig c).

(** The loop of [ConfigureOpentelemetry] over the setup functions.  After
    [Fatalf] the process is gone, so the [continue] is never reached. *)
Fixpoint run_setups (setups : list setupFunc) (c : Config.t) (ls : Launcher)
    : M Launcher :=
  match setups with
  | [] => ret ls
  | setup :: rest =>
      r <- setup c ;;
      match snd r with
      | Some err => Fatal ("setup error: " ++ err)%string
      | None =>
          match fst r with
          | Some shutdown =>
              run_setups rest c
                (mkLauncher (config ls) (shutdownFuncs ls ++ [shutdown]))
          | None => run_setups rest c ls
          end
      end
  end.

Definition ConfigureOpentelemetry (opts : list Option) : M Launcher :=
  c <- newConfig opts ;;
  (if String.eqb (Config.LogLevel c) "debug"
   then Debug "debug logging enabled" else ret tt) ;;;
  let c := default_Headers c in
  match validateConfiguration c with
  | Some err => Fatal ("configuration error: " ++ err)%string
  | None =>
      match Config.errorHandler c with
      | Some h => otel_SetErrorHandler h
      | None => ret tt
      end ;;;
      let ls := mkLauncher c [] in
      run_setups [setupTracing; setupMetrics] c ls
  end.

(** The loop of [ShutdownContext]. *)
Fixpoint shutdown_all (fs : list ShutdownFunc) (ctx : Context) : M unit :=
  match fs with
  | [] => ret tt
  | shutdown :: rest =>
      err <- invoke X shutdown ctx ;;
      match err with
      | Some err => Fatal ("failed to stop exporter: " ++ err)%string
      | None => shutdown_all rest ctx
      end
  end.

Definition ShutdownContext (ls : Launcher) (ctx : Context) : M unit :=
  shutdown_all (shutdownFuncs ls) ctx.

Definition Shutdown (ls : Launcher) : M unit :=
  ShutdownContext ls Background.
End Launcher.

(** ** The specification's reading of the resource builder

    The attribute sequence as section 4.2 of the specification words it: a
    concatenation of four groups.  [newResource_attributes] above follows
    the code; the two are compared below. *)

Definition identity_attributes (X : Collaborators) (c : Config.t) : list KeyValue :=
  [KV "telemetry.sdk.name" "cfobservability";
   KV "telemetry.sdk.language" "go";
   KV "telemetry.sdk.version" (version X)]
  ++ (if len0 (Config.ServiceName c) then []
      else [KV "service.name" (Config.ServiceName c)])
  ++ (if len0 (Config.ServiceVersion c) then []
      else [KV "service.version" (Config.ServiceVersion c)]).

Definition caller_attributes (c : Config.t) : list KeyValue :=
  map (fun kv => KV (fst kv) (snd kv))
      (filter (fun kv => negb (len0 (snd kv))) (Config.resourceAttributes c)).

(** A non-empty host name comes with the environment or from the caller. *)
Definition hostname_given (X : Collaborators) (c : Config.t) : bool :=
  existsb (fun kv => String.eqb (Key kv) "host.name" && negb (len0 (Value kv)))
          (attrs (resource_Environment X))
  || existsb (fun kv => String.eqb (fst kv) "host.name" && negb (len0 (snd kv)))
             (Config.resourceAttributes c).

Definition detected_hostname (X : Collaborators) (c : Config.t) : list KeyValue :=
  if hostname_given X c then []
  else match snd (os_Hostname X) with
       | None => [KV "host.name" (fst (os_Hostname X))]
       | Some _ => []
       end.

Definition resource_attributes_spec (X : Collaborators) (c : Config.t)
    : list KeyValue :=
  attrs (resource_Environment X)
  ++ identity_attributes X c
  ++ caller_attributes c
  ++ detected_hostname X c.

(** How often a key occurs in an attribute sequence. *)
Definition count_key (k : string) (l : list KeyValue) : nat :=
  List.length (filter (fun kv => String.eqb (Key kv) k) l).

(** The collaborator calls that the body of a shutdown function makes. *)
Definition shutdown_calls (ctx : Context) (f : ShutdownFunc) : list Call :=
  match f with
  | TraceShutdown bsp spanExporter =>
      [Call_bsp_Shutdown bsp ctx; Call_spanExporter_Shutdown spanExporter ctx]
  | MetricsShutdown p => [Call_metrics_shutdown p ctx]
  end.

(** The world in which the setup loop of [ConfigureOpentelemetry] starts,
    given the world in which [newConfig] ended: the debug entry is written
    and the error handler is registered. *)
Definition before_setups (c : Config.t) (w : World) : World :=
  let w := if String.eqb (Config.LogLevel c) "debug"
           then add_log DebugLevel "debug logging enabled" w else w in
  match Config.errorHandler c with
  | Some h => mkWorld (globalTracerProvider w) (globalTextMapPropagator w)
                      (Some h) (log w) (calls w)
  | None => w
  end.

(** ** A sample process

    The environment decodes to the defaults of the struct tags, every
    collaborator succeeds, and the metrics factory hands out pipeline 7. *)

Definition env_defaults : Config.t :=
  Config.mk "ingest.commonfate.io:443" false "" "" None
    "ingest.commonfate.io:443" false true "info" ["b3"] "30s" 0 [] None None
    Background.

Definition quiet : Collaborators :=
  mkCollaborators "0.1.0" (env_defaults, None) (mkResource []) ("build-host", None)
    (fun _ _ _ => None) (fun _ _ _ => (Some 7, None))
    (fun _ _ _ => None) (fun _ _ _ => None) (fun _ _ _ => None).

(** As [quiet], but the host name cannot be read and the environment
    carries a host name of its own. *)
Definition hostless : Collaborators :=
  mkCollaborators "0.1.0" (env_defaults, None)
    (mkResource [KV "host.name" "from-env"]) ("", Some "hostname: not permitted")
    (fun _ _ _ => None) (fun _ _ _ => (Some 7, None))
    (fun _ _ _ => None) (fun _ _ _ => None) (fun _ _ _ => None).

Definition fresh_world : World := mkWorld None None None [] [].

Definition sample_exporter : Exporter :=
  mkExporter "ingest.commonfate.io:443" false (Some []).

Definition sample_bsp : BatchSpanProcessor := mkBSP sample_exporter 5000000000.

(** ** Vocabulary for the further properties *)

(** The codecs of the keys that the table of [configurePropagators] holds,
    key by key. *)
Definition supported_propagators (keys : list string) : list TextMapPropagator :=
  flat_map (fun key => match lookup propagatorsMap key with
                       | Some prop => [prop]
                       | None => []
                       end) keys.

(** Two worlds with the same registrations at the SDK. *)
Definition same_registrations (w w' : World) : Prop :=
  globalTracerProvider w' = globalTracerProvider w
  /\ globalTextMapPropagator w' = globalTextMapPropagator w
  /\ globalErrorHandler w' = globalErrorHandler w.

(** Reading a header map that may be nil. *)
Definition headers_of (c : Config.t) : GoMap :=
  match Config.Headers c with
  | Some h => h
  | None => []
  end.

(** The configuration on which [newConfig] runs [newResource]: the decoded
    environment, the three defaults, then the options in their order. *)
Definition configured (X : Collaborators) (opts : list Option) : Config.t :=
  fold_left (fun c opt => opt c) opts
    (set_errorHandler (Some defaultHandler)
       (set_context Background
          (set_BatchTimeout 5000000000 (fst (envconfig_Process X))))).

(** As [quiet], but the collector cannot be reached. *)
Definition unreachable : Collaborators :=
  mkCollaborators "0.1.0" (env_defaults, None) (mkResource []) ("build-host", None)
    (fun _ _ _ => Some "context deadline exceeded") (fun _ _ _ => (Some 7, None))
    (fun _ _ _ => None) (fun _ _ _ => None) (fun _ _ _ => None).

(** As [quiet], but the environment does not decode. *)
Definition undecodable : Collaborators :=
  mkCollaborators "0.1.0" (env_defaults, Some "OTEL_METRICS_ENABLED: invalid syntax")
    (mkResource []) ("build-host", None)
    (fun _ _ _ => None) (fun _ _ _ => (Some 7, None))
    (fun _ _ _ => None) (fun _ _ _ => None) (fun _ _ _ => None).

(** As [quiet], but the processor and the span exporter fail to close. *)
Definition stuck : Collaborators :=
  mkCollaborators "0.1.0" (env_defaults, None) (mkResource []) ("build-host", None)
    (fun _ _ _ => None) (fun _ _ _ => (Some 7, None))
    (fun _ _ _ => Some "processor: timeout")
    (fun _ _ _ => Some "exporter: timeout") (fun _ _ _ => None).

(** As [quiet], but the processor alone fails to close. *)
Definition lossy : Collaborators :=
  mkCollaborators "0.1.0" (env_defaults, None) (mkResource []) ("build-host", None)
    (fun _ _ _ => None) (fun _ _ _ => (Some 7, None))
    (fun _ _ _ => Some "processor: timeout")
    (fun _ _ _ => None) (fun _ _ _ => None).

(** An environment that disables metrics and asks for two propagators;
    the processor fails to close, the exporter closes. *)
Definition env_traces_only : Config.t :=
  Config.mk "ingest.commonfate.io:443" false "" "" None
    "ingest.commonfate.io:443" false false "info" ["tracecontext"; "baggage"]
    "30s" 0 [] None None Background.

Definition traces_only : Collaborators :=
  mkCollaborators "0.1.0" (env_traces_only, None) (mkResource []) ("build-host", None)
    (fun _ _ _ => None) (fun _ _ _ => (Some 7, None))
    (fun _ _ _ => Some "processor: timeout")
    (fun _ _ _ => None) (fun _ _ _ => None).

(** An environment that asks for a propagator the table does not hold. *)
Definition env_jaeger : Config.t :=
  Config.mk "ingest.commonfate.io:443" false "" "" None
    "ingest.commonfate.io:443" false true "info" ["jaeger"]
    "30s" 0 [] None None Background.

Definition jaeger_only : Collaborators :=
  mkCollaborators "0.1.0" (env_jaeger, None) (mkResource []) ("build-host", None)
    (fun _ _ _ => None) (fun _ _ _ => (Some 7, None))
    (fun _ _ _ => None) (fun _ _ _ => None) (fun _ _ _ => None).

(** What a shutdown function returns when it is invoked after the calls
    [h]: the answer of the exporter, taken after the call to the processor,
    or the answer of the metrics pipeline. *)
Definition shutdown_answer (X : Collaborators) (f : ShutdownFunc) (ctx : Context)
    (h : list Call) : option error :=
  match f with
  | TraceShutdown bsp spanExporter =>
      spanExporter_Shutdown X spanExporter ctx (h ++ [Call_bsp_Shutdown bsp ctx])
  | MetricsShutdown p => metrics_shutdown X p ctx h
  end.

(** What the function at position [i] of the list [fs] returns in a walk
    that starts after the calls [h], once the functions before it have been
    invoked. *)
Definition answer_at (X : Collaborators) (fs : list ShutdownFunc) (ctx : Context)
    (h : list Call) (i : nat) : option error :=
  match nth_error fs i with
  | Some f =>
      shutdown_answer X f ctx (h ++ flat_map (shutdown_calls ctx) (firstn i fs))
  | None => None
  end.

(** As [quiet], but a span exporter closes once: a further shutdown of an
    exporter answers with an error. *)
Definition closes_once : Collaborators :=
  mkCollaborators "0.1.0" (env_defaults, None) (mkResource []) ("build-host", None)
    (fun _ _ _ => None) (fun _ _ _ => (Some 7, None))
    (fun _ _ _ => None)
    (fun _ _ h =>
       if existsb (fun c => match c with
                            | Call_spanExporter_Shutdown _ _ => true
                            | _ => false
                            end) h
       then Some "exporter: already shut down" else None)
    (fun _ _ _ => None).

(** * Properties *)

(** ** Propagator composition *)

Lemma collect_propagators_from (keys : list string) (acc : list TextMapPropagator) :
  fold_left
    (fun props key =>
       match lookup propagatorsMap key with
       | Some prop => props ++ [prop]
       | None => props
       end) keys acc
  = acc ++ flat_map (fun key => match lookup propagatorsMap key with
                                | Some prop => [prop]
                                | None => []
                                end) keys.
Proof.
  revert acc. induction keys as [|key keys IH]; intro acc; cbn [fold_left flat_map].
  - now rewrite app_nil_r.
  - rewrite IH. destruct (lookup propagatorsMap key).
    + rewrite <- app_assoc. reflexivity.
    + reflexivity.
Qed.

Lemma collect_propagators_unsupported (keys : list string) :
  Forall (fun key => lookup propagatorsMap key = None) keys ->
  collect_propagators keys = [].
Proof.
  intro H. unfold collect_propagators. rewrite collect_propagators_from.
  cbn [app].
  induction H as [|key keys Hk _ IH]; cbn [flat_map]; [reflexivity|].
  now rewrite Hk.
Qed.

Lemma configurePropagators_error (c : PipelineConfig.t) (w w' : World) (err : error) :
  configurePropagators c w = Ret (Some err) w' ->
  w' = w /\ err = unsupported_propagators.
Proof.
  unfold configurePropagators.
  destruct (Nat.eqb _ 0); unfold bind, ret, otel_SetTextMapPropagator; intro H.
  - now inversion H.
  - discriminate H.
Qed.

Lemma collect_propagators_supported (keys : list string) :
  collect_propagators keys = supported_propagators keys.
Proof.
  unfold collect_propagators, supported_propagators.
  now rewrite collect_propagators_from.
Qed.

Lemma supported_propagators_nonempty (keys : list string) :
  Exists (fun key => lookup propagatorsMap key <> None) keys ->
  supported_propagators keys <> [].
Proof.
  unfold supported_propagators.
  induction 1 as [key keys Hk | key keys _ IH]; cbn [flat_map].
  - destruct (lookup propagatorsMap key); [discriminate | congruence].
  - intro H. apply app_eq_nil in H. tauto.
Qed.

(** C4. [configurePropagators] skips every key that its table does not
    hold.  For the list b3, unknown-key it installs the composite of B3
    alone and returns no error.  For every list with at least one key of
    the table, wherever the unknown keys stand, it returns no error and
    installs the composite of the codecs of the supported keys, in the
    order of the request; a key outside the table never changes what is
    collected.  When no key of the list is in the table (the empty list
    included) it returns the configuration error that names the four
    supported keys, and installs nothing. *)
Theorem configurePropagators_skips_unknown_keys :
  (forall c w,
     PipelineConfig.Propagators c = ["b3"; "unknown-key"] ->
     configurePropagators c w
     = Ret None (mkWorld (globalTracerProvider w) (Some [B3MultipleHeader])
                         (globalErrorHandler w) (log w) (calls w)))
  /\ (forall keys1 key keys2,
        lookup propagatorsMap key = None ->
        collect_propagators (keys1 ++ key :: keys2)
        = collect_propagators (keys1 ++ keys2))
  /\ (forall c w,
        Forall (fun key => lookup propagatorsMap key = None)
               (PipelineConfig.Propagators c) ->
        configurePropagators c w
        = Ret (Some "invalid configuration: unsupported propagators. Supported options: b3,baggage,tracecontext,ottrace")
              w)
  /\ (forall c w,
        Exists (fun key => lookup propagatorsMap key <> None)
               (PipelineConfig.Propagators c) ->
        configurePropagators c w
        = Ret None
              (mkWorld (globalTracerProvider w)
                 (Some (supported_propagators (PipelineConfig.Propagators c)))
                 (globalErrorHandler w) (log w) (calls w)))
  /\ (forall keys1 key keys2,
        lookup propagatorsMap key = None ->
        supported_propagators (keys1 ++ key :: keys2)
        = supported_propagators (keys1 ++ keys2)).
Proof.
  split; [|split; [|split; [|split]]].
  - intros c w H. unfold configurePropagators. rewrite H. reflexivity.
  - intros keys1 key keys2 H. unfold collect_propagators.
    rewrite !collect_propagators_from, !flat_map_app. cbn [flat_map app].
    now rewrite H.
  - intros c w H. unfold configurePropagators.
    rewrite (collect_propagators_unsupported _ H). reflexivity.
  - intros c w H. pose proof (supported_propagators_nonempty _ H) as Hne.
    unfold configurePropagators. rewrite collect_propagators_supported.
    destruct (supported_propagators (PipelineConfig.Propagators c)); [congruence|].
    reflexivity.
  - intros keys1 key keys2 H. unfold supported_propagators.
    rewrite !flat_map_app. cbn [flat_map]. now rewrite H.
Qed.

Lemma configurePropagators_skips_unknown_keys_witness :
  configurePropagators
    (PipelineConfig.mk "" false None None "" 0 ["unknown-key"]) fresh_world
  = Ret (Some unsupported_propagators) fresh_world
  /\ configurePropagators
       (PipelineConfig.mk "" false None None "" 0 []) fresh_world
     = Ret (Some unsupported_propagators) fresh_world
  /\ collect_propagators (["tracecontext"] ++ "B3" :: ["baggage"])
     = [TraceContext; Baggage]
  /\ configurePropagators
       (PipelineConfig.mk "" false None None "" 0 ["unknown-key"; "b3"; "B3"; "ottrace"])
       fresh_world
     = Ret None (mkWorld None (Some [B3MultipleHeader; OT]) None [] []).
Proof.
  destruct configurePropagators_skips_unknown_keys as [_ [Hskip [Hnone [Hsome _]]]].
  split; [|split; [|split]].
  - apply Hnone. simpl. repeat constructor.
  - apply Hnone. simpl. constructor.
  - rewrite (Hskip ["tracecontext"] "B3" ["baggage"]); reflexivity.
  - apply (Hsome (PipelineConfig.mk "" false None None "" 0
                    ["unknown-key"; "b3"; "B3"; "ottrace"]) fresh_world).
    apply Exists_cons_tl, Exists_cons_hd. discriminate.
Defined.

(** ** Validation *)

Lemma find_service_name (l : list KeyValue) :
  NoDup (map Key l) ->
  forall v, In (KV "service.name" v) l ->
  (fix scan (l : list KeyValue) : bool :=
     match l with
     | [] => false
     | kv :: rest =>
         if String.eqb (Key kv) semconv.AttributeServiceName
         then negb (len0 (Value kv))
         else scan rest
     end) l = negb (len0 v).
Proof.
  induction l as [|kv l IH]; intros Hnd v Hin; [destruct Hin|].
  inversion Hnd as [|? ? Hnotin Hnd']; subst.
  destruct Hin as [->|Hin]; simpl.
  - reflexivity.
  - destruct (String.eqb_spec (Key kv) semconv.AttributeServiceName) as [E|E].
    + exfalso. apply Hnotin. rewrite E.
      change semconv.AttributeServiceName with (Key (KV "service.name" v)).
      now apply in_map.
    + now apply IH.
Qed.

Lemma no_service_name (l : list KeyValue) :
  (forall v, In (KV "service.name" v) l -> v = "") ->
  (fix scan (l : list KeyValue) : bool :=
     match l with
     | [] => false
     | kv :: rest =>
         if String.eqb (Key kv) semconv.AttributeServiceName
         then negb (len0 (Value kv))
         else scan rest
     end) l = false.
Proof.
  induction l as [|[k v] l IH]; intro H; simpl; [reflexivity|].
  destruct (String.eqb_spec k semconv.AttributeServiceName) as [E|E].
  - subst k. rewrite (H v); [reflexivity | now left].
  - apply IH. intros v' Hin. apply H. now right.
Qed.

Lemma len0_empty (s : string) : len0 s = true <-> s = "".
Proof.
  unfold len0. destruct s; simpl; split; intro H; congruence.
Qed.

(** C5. [validateConfiguration] returns the configuration error when the
    [ServiceName] field is empty and the resource holds no service-name
    attribute with a non-empty value; it returns nil when the field is
    non-empty or the resource holds such an attribute.  (The keys of a
    resource are distinct, as the SDK keeps them as a set.) *)
Theorem validateConfiguration_service_name (c : Config.t) :
  resource_wf (Config.Resource c) ->
  (Config.ServiceName c = "" ->
   (forall v, In (KV "service.name" v) (Attributes (Config.Resource c)) -> v = "") ->
   validateConfiguration c
   = Some "invalid configuration: service name missing. Configure WithServiceName in code")
  /\ (Config.ServiceName c <> ""
      \/ (exists v, v <> "" /\ In (KV "service.name" v) (Attributes (Config.Resource c))) ->
      validateConfiguration c = None).
Proof.
  intro Hwf. unfold validateConfiguration. split.
  - intros Hname Hres. rewrite Hname. simpl.
    now rewrite (no_service_name _ Hres).
  - intros [Hname | [v [Hv Hin]]].
    + destruct (len0 (Config.ServiceName c)) eqn:E; [|reflexivity].
      now apply len0_empty in E.
    + destruct (len0 (Config.ServiceName c)); [|reflexivity].
      rewrite (find_service_name _ Hwf v Hin).
      destruct (len0 v) eqn:E; [|reflexivity].
      now apply len0_empty in E.
Qed.

Lemma validateConfiguration_service_name_witness :
  validateConfiguration env_defaults
  = Some "invalid configuration: service name missing. Configure WithServiceName in code"
  /\ validateConfiguration (set_ServiceName "billing" env_defaults) = None
  /\ validateConfiguration
       (set_Resource (Some (mkResource [KV "host.name" "h"; KV "service.name" "billing"]))
                     env_defaults) = None.
Proof.
  split; [|split].
  - apply (validateConfiguration_service_name env_defaults).
    + simpl. constructor.
    + reflexivity.
    + simpl. intros v [].
  - apply (validateConfiguration_service_name (set_ServiceName "billing" env_defaults)).
    + simpl. constructor.
    + left. simpl. discriminate.
  - apply (validateConfiguration_service_name
             (set_Resource (Some (mkResource [KV "host.name" "h"; KV "service.name" "billing"]))
                           env_defaults)).
    + unfold resource_wf. simpl. repeat constructor; simpl; intuition discriminate.
    + right. exists "billing". split; [discriminate | simpl; auto].
Defined.

(** ** The trace pipeline *)

(** C7. The shutdown function that a successful [NewTracePipeline] returns
    first shuts the batch span processor down and drops what that call
    answers, then shuts the span exporter down; its result is the answer of
    the exporter, whatever the processor answered. *)
Theorem trace_shutdown_propagates_exporter_error
    (X : Collaborators) (ctx : Context) (c : PipelineConfig.t)
    (w w1 : World) (shutdown : ShutdownFunc) :
  NewTracePipeline X ctx c w = Ret (Some shutdown, None) w1 ->
  forall (ctx' : Context) (w2 : World),
    let spanExporter :=
      mkExporter (PipelineConfig.Endpoint c) (PipelineConfig.Insecure c)
                 (PipelineConfig.Headers c) in
    let bsp := mkBSP spanExporter (PipelineConfig.BatchTimeout c) in
    invoke X shutdown ctx' w2
    = Ret (spanExporter_Shutdown X spanExporter ctx'
             (calls w2 ++ [Call_bsp_Shutdown bsp ctx']))
          (add_call (Call_spanExporter_Shutdown spanExporter ctx')
             (add_call (Call_bsp_Shutdown bsp ctx') w2)).
Proof.
  unfold NewTracePipeline, newTraceExporter, bind, call, ret. cbn [fst snd].
  destruct (otlptrace_New X ctx _ (calls w)); [discriminate|].
  destruct (configurePropagators c _) as [[err|] w'|]; try discriminate.
  unfold otel_SetTracerProvider. intro H. inversion H; subst.
  intros ctx' w2. reflexivity.
Qed.

Lemma trace_shutdown_propagates_exporter_error_witness :
  invoke
    (mkCollaborators "0.1.0" (env_defaults, None) (mkResource []) ("h", None)
       (fun _ _ _ => None) (fun _ _ _ => (None, None))
       (fun _ _ _ => Some "processor: already stopped")
       (fun _ _ _ => Some "exporter: connection closed")
       (fun _ _ _ => None))
    (TraceShutdown sample_bsp sample_exporter) (CallerContext 1) fresh_world
  = Ret (Some "exporter: connection closed")
        (mkWorld None None None []
           [Call_bsp_Shutdown sample_bsp (CallerContext 1);
            Call_spanExporter_Shutdown sample_exporter (CallerContext 1)]).
Proof.
  apply (trace_shutdown_propagates_exporter_error
           (mkCollaborators "0.1.0" (env_defaults, None) (mkResource []) ("h", None)
              (fun _ _ _ => None) (fun _ _ _ => (None, None))
              (fun _ _ _ => Some "processor: already stopped")
              (fun _ _ _ => Some "exporter: connection closed")
              (fun _ _ _ => None))
           Background
           (PipelineConfig.mk "ingest.commonfate.io:443" false (Some []) None ""
              5000000000 ["b3"])
           fresh_world
           (mkWorld
              (Some (mkTP sample_bsp None)) (Some [B3MultipleHeader]) None []
              [Call_newTraceExporter Background sample_exporter])).
  reflexivity.
Defined.

(** C10. When the span exporter has been built and the composition of the
    propagators then fails, [NewTracePipeline] returns that error and no
    shutdown function, and the tracer provider registered with the process
    is the one that was registered before: [otel.SetTracerProvider] is not
    reached. *)
Theorem NewTracePipeline_propagator_failure
    (X : Collaborators) (ctx : Context) (c : PipelineConfig.t)
    (w w1 : World) (err : error) :
  let spanExporter :=
    mkExporter (PipelineConfig.Endpoint c) (PipelineConfig.Insecure c)
               (PipelineConfig.Headers c) in
  otlptrace_New X ctx spanExporter (calls w) = None ->
  configurePropagators c (add_call (Call_newTraceExporter ctx spanExporter) w)
  = Ret (Some err) w1 ->
  NewTracePipeline X ctx c w = Ret (None, Some err) w1
  /\ globalTracerProvider w1 = globalTracerProvider w
  /\ globalTextMapPropagator w1 = globalTextMapPropagator w.
Proof.
  intros spanExporter Hexp Hprop.
  destruct (configurePropagators_error _ _ _ _ Hprop) as [Hw Herr].
  split; [|subst w1; split; reflexivity].
  unfold NewTracePipeline, newTraceExporter, bind, call, ret. cbn [fst snd].
  fold spanExporter. rewrite Hexp, Hprop. reflexivity.
Qed.

Lemma NewTracePipeline_propagator_failure_witness :
  NewTracePipeline quiet Background
    (PipelineConfig.mk "ingest.commonfate.io:443" false (Some []) None ""
       5000000000 ["jaeger"])
    fresh_world
  = Ret (None, Some unsupported_propagators)
        (mkWorld None None None [] [Call_newTraceExporter Background sample_exporter])
  /\ globalTracerProvider
       (mkWorld None None None [] [Call_newTraceExporter Background sample_exporter])
     = globalTracerProvider fresh_world
  /\ globalTextMapPropagator
       (mkWorld None None None [] [Call_newTraceExporter Background sample_exporter])
     = globalTextMapPropagator fresh_world.
Proof.
  apply (NewTracePipeline_propagator_failure quiet Background
           (PipelineConfig.mk "ingest.commonfate.io:443" false (Some []) None ""
              5000000000 ["jaeger"])
           fresh_world); reflexivity.
Defined.

(** ** The metrics gate *)

(** C9. With [MetricsEnabled] set, [setupMetrics] calls
    [NewMetricsPipeline] with the metric endpoint as it stands, the empty
    string included, and returns what the factory answers: the endpoint
    takes no part in the decision.  With [MetricsEnabled] unset it makes no
    call, whatever the endpoint. *)
Theorem setupMetrics_gate_is_enabled_flag (X : Collaborators) (c : Config.t) (w : World) :
  (Config.MetricsEnabled c = true ->
   setupMetrics X c w
   = Ret (option_map MetricsShutdown
            (fst (NewMetricsPipeline_result X (Config.context c)
                    (metricsPipelineConfig c) (calls w))),
          snd (NewMetricsPipeline_result X (Config.context c)
                 (metricsPipelineConfig c) (calls w)))
         (add_call (Call_NewMetricsPipeline (Config.context c) (metricsPipelineConfig c)) w)
   /\ PipelineConfig.Endpoint (metricsPipelineConfig c) = Config.MetricExporterEndpoint c)
  /\ (Config.MetricsEnabled c = false ->
      setupMetrics X c w
      = Ret (None, None)
            (add_log DebugLevel "metrics are disabled by configuration: no endpoint set" w)).
Proof.
  unfold setupMetrics. split; intro H; rewrite H; cbn [negb].
  - split; reflexivity.
  - reflexivity.
Qed.

Lemma setupMetrics_gate_is_enabled_flag_witness :
  setupMetrics quiet (set_MetricExporterEndpoint "" env_defaults) fresh_world
  = Ret (Some (MetricsShutdown 7), None)
        (mkWorld None None None []
           [Call_NewMetricsPipeline Background
              (PipelineConfig.mk "" false None None "30s" 0 [])])
  /\ setupMetrics quiet
       (set_MetricsEnabled false (set_MetricExporterEndpoint "collector:4317" env_defaults))
       fresh_world
     = Ret (None, None)
           (mkWorld None None None
              [(DebugLevel, "metrics are disabled by configuration: no endpoint set")] []).
Proof.
  split.
  - apply (setupMetrics_gate_is_enabled_flag quiet
             (set_MetricExporterEndpoint "" env_defaults) fresh_world).
    reflexivity.
  - apply (setupMetrics_gate_is_enabled_flag quiet
             (set_MetricsEnabled false
                (set_MetricExporterEndpoint "collector:4317" env_defaults))
             fresh_world).
    reflexivity.
Defined.

(** ** The resource builder *)

Lemma scan_hostname_from (l : list KeyValue) (acc : bool) :
  fold_left
    (fun hostnameSet kv =>
       if String.eqb (Key kv) semconv.AttributeHostName && negb (len0 (Value kv))
       then true else hostnameSet) l acc
  = acc || existsb (fun kv => String.eqb (Key kv) "host.name" && negb (len0 (Value kv))) l.
Proof.
  revert acc. induction l as [|kv l IH]; intro acc; cbn [fold_left existsb].
  - now rewrite orb_false_r.
  - rewrite IH. unfold semconv.AttributeHostName.
    destruct (String.eqb (Key kv) "host.name" && negb (len0 (Value kv))), acc;
      reflexivity.
Qed.

Lemma add_resourceAttributes_from (m : GoMap) (hostnameSet : bool) (l : list KeyValue) :
  add_resourceAttributes m (hostnameSet, l)
  = (hostnameSet
     || existsb (fun kv => String.eqb (fst kv) "host.name" && negb (len0 (snd kv))) m,
     l ++ map (fun kv => KV (fst kv) (snd kv))
              (filter (fun kv => negb (len0 (snd kv))) m)).
Proof.
  unfold add_resourceAttributes.
  revert hostnameSet l. induction m as [|[key value] m IH]; intros hostnameSet l;
    cbn [fold_left existsb filter map fst snd].
  - now rewrite orb_false_r, app_nil_r.
  - destruct (len0 value); cbn [negb map].
    + rewrite IH, andb_false_r. reflexivity.
    + rewrite IH, andb_true_r. unfold semconv.AttributeHostName, attribute_String.
      rewrite <- app_assoc. cbn [app].
      destruct (String.eqb key "host.name"), hostnameSet; reflexivity.
Qed.

Lemma newResource_attributes_run (X : Collaborators) (c : Config.t) (w : World) :
  newResource_attributes X c w
  = Ret (resource_attributes_spec X c)
        (if hostname_given X c then w
         else match snd (os_Hostname X) with
              | Some err => add_log DebugLevel (hostname_hint err) w
              | None => w
              end).
Proof.
  unfold newResource_attributes, resource_attributes_spec, detected_hostname,
    hostname_given, identity_attributes, scan_hostname.
  rewrite add_resourceAttributes_from, scan_hostname_from. cbn [fst snd orb].
  unfold attribute_String, semconv.AttributeTelemetrySDKName,
    semconv.AttributeTelemetrySDKLanguage, semconv.AttributeTelemetrySDKVersion,
    semconv.AttributeServiceName, semconv.AttributeServiceVersion,
    semconv.AttributeHostName.
  set (given := existsb _ (attrs (resource_Environment X)) || existsb _ _).
  unfold bind, ret, Debug.
  destruct (len0 (Config.ServiceName c)), (len0 (Config.ServiceVersion c)), given;
    cbn [negb app]; try reflexivity;
    destruct (os_Hostname X) as [hostname [err|]]; cbn [fst snd];
    rewrite <- ?app_assoc; cbn [app]; rewrite ?app_nil_r; reflexivity.
Qed.

Lemma count_key_app (k : string) (l1 l2 : list KeyValue) :
  count_key k (l1 ++ l2) = count_key k l1 + count_key k l2.
Proof.
  unfold count_key. now rewrite filter_app, length_app.
Qed.

(** C8. The slice that [newResource] hands to [resource.New] is the ordered
    concatenation of the attributes of the environment, the three SDK
    attributes, the service name and the service version when their fields
    are non-empty, the caller's attributes with a non-empty value in the
    order of the iteration, and the detected host name when none was given
    and the detection succeeds.  Nothing is merged on the way: every key
    occurs as often as in the four groups together. *)
Theorem newResource_attributes_is_concatenation
    (X : Collaborators) (c : Config.t) (w : World) :
  exists w',
    newResource_attributes X c w
    = Ret (attrs (resource_Environment X)
           ++ [KV "telemetry.sdk.name" "cfobservability";
               KV "telemetry.sdk.language" "go";
               KV "telemetry.sdk.version" (version X)]
           ++ (if len0 (Config.ServiceName c) then []
               else [KV "service.name" (Config.ServiceName c)])
           ++ (if len0 (Config.ServiceVersion c) then []
               else [KV "service.version" (Config.ServiceVersion c)])
           ++ caller_attributes c
           ++ detected_hostname X c) w'
    /\ newResource X c w = Ret (resource_New (resource_attributes_spec X c)) w'
    /\ calls w' = calls w
    /\ forall k,
         count_key k (resource_attributes_spec X c)
         = count_key k (attrs (resource_Environment X))
           + count_key k (identity_attributes X c)
           + count_key k (caller_attributes c)
           + count_key k (detected_hostname X c).
Proof.
  eexists. split; [|split; [|split]].
  - rewrite newResource_attributes_run. unfold resource_attributes_spec,
      identity_attributes. rewrite <- !app_assoc. reflexivity.
  - unfold newResource, bind. rewrite newResource_attributes_run. reflexivity.
  - destruct (hostname_given X c); [reflexivity|].
    destruct (snd (os_Hostname X)); reflexivity.
  - intro k. unfold resource_attributes_spec. rewrite !count_key_app. lia.
Qed.

(** *** What [resource.New] keeps *)

Lemma has_key_false (k : string) (l : list KeyValue) :
  has_key k l = false <-> ~ In k (map Key l).
Proof.
  unfold has_key. induction l as [|kv l IH]; cbn [existsb map In].
  - tauto.
  - rewrite orb_false_iff, IH.
    destruct (String.eqb_spec (Key kv) k); intuition congruence.
Qed.

Lemma last_wins_incl (l : list KeyValue) (kv : KeyValue) :
  In kv (last_wins l) -> In kv l.
Proof.
  induction l as [|a l IH]; cbn [last_wins]; [tauto|].
  destruct (has_key (Key a) l); cbn [In]; tauto.
Qed.

Lemma last_wins_NoDup (l : list KeyValue) : NoDup (map Key (last_wins l)).
Proof.
  induction l as [|a l IH]; cbn [last_wins map]; [constructor|].
  destruct (has_key (Key a) l) eqn:E; [exact IH|].
  cbn [map]. constructor; [|exact IH].
  intro Hin. apply in_map_iff in Hin. destruct Hin as [kv [Hk Hin]].
  apply has_key_false in E. apply E. rewrite <- Hk.
  apply in_map, last_wins_incl, Hin.
Qed.

Lemma last_wins_keeps_last (l1 l2 : list KeyValue) (kv : KeyValue) :
  has_key (Key kv) l2 = false -> In kv (last_wins (l1 ++ kv :: l2)).
Proof.
  intro H. induction l1 as [|a l1 IH]; cbn [app last_wins].
  - rewrite H. now left.
  - destruct (has_key (Key a) (l1 ++ kv :: l2)); [exact IH | now right].
Qed.

Lemma insert_by_key_perm (kv : KeyValue) (l : list KeyValue) :
  Permutation (insert_by_key kv l) (kv :: l).
Proof.
  induction l as [|a l IH]; cbn [insert_by_key]; [reflexivity|].
  destruct (String.leb (Key kv) (Key a)); [reflexivity|].
  rewrite IH. apply perm_swap.
Qed.

Lemma sort_by_key_perm (l : list KeyValue) : Permutation (sort_by_key l) l.
Proof.
  unfold sort_by_key. induction l as [|a l IH]; cbn [fold_right]; [reflexivity|].
  rewrite insert_by_key_perm. now constructor.
Qed.

Lemma resource_New_wf (attributes : list KeyValue) :
  resource_wf (Some (resource_New attributes)).
Proof.
  unfold resource_wf, resource_New, Attributes, attrs.
  eapply Permutation_NoDup.
  - apply Permutation_map, Permutation_sym, sort_by_key_perm.
  - apply last_wins_NoDup.
Qed.

Lemma find_by_key (l : list KeyValue) (kv : KeyValue) :
  NoDup (map Key l) -> In kv l ->
  find (fun kv' => String.eqb (Key kv') (Key kv)) l = Some kv.
Proof.
  induction l as [|a l IH]; intros Hnd Hin; [destruct Hin|].
  inversion Hnd as [|? ? Hnotin Hnd']; subst. cbn [find].
  destruct Hin as [->|Hin].
  - now rewrite String.eqb_refl.
  - destruct (String.eqb_spec (Key a) (Key kv)) as [E|E].
    + exfalso. apply Hnotin. rewrite E. now apply in_map.
    + now apply IH.
Qed.

Lemma resource_New_last_wins (l1 l2 : list KeyValue) (k v : string) :
  k <> "" -> has_key k l2 = false ->
  resource_get (Some (resource_New (l1 ++ KV k v :: l2))) k = Some v.
Proof.
  intros Hk Hlast. unfold resource_get.
  assert (Hfind : find (fun kv' => String.eqb (Key kv') k)
                       (Attributes (Some (resource_New (l1 ++ KV k v :: l2))))
                  = Some (KV k v)); [|now rewrite Hfind].
  apply (find_by_key _ (KV k v)); [apply resource_New_wf|].
  unfold resource_New, Attributes, attrs.
  apply (Permutation_in _ (Permutation_sym (sort_by_key_perm _))).
  rewrite filter_app. cbn [filter]. unfold Valid at 2. cbn [Key].
  destruct (len0 k) eqn:E; [now apply len0_empty in E|]. cbn [negb].
  apply last_wins_keeps_last. cbn [Key].
  apply has_key_false. intro Hin. apply has_key_false in Hlast. apply Hlast.
  apply in_map_iff in Hin. destruct Hin as [kv [Hkv Hin]].
  apply filter_In in Hin. rewrite <- Hkv. apply in_map. tauto.
Qed.

Lemma caller_attributes_without (k : string) (m : GoMap) :
  ~ In k (map fst m) ->
  ~ In k (map Key (map (fun kv => KV (fst kv) (snd kv))
                       (filter (fun kv => negb (len0 (snd kv))) m))).
Proof.
  intros Hnotin Hin. apply Hnotin.
  rewrite map_map in Hin. cbn [Key] in Hin.
  apply in_map_iff in Hin. destruct Hin as [kv [Hk Hin]].
  apply filter_In in Hin. rewrite <- Hk. apply in_map. tauto.
Qed.

Lemma count_key_absent (k : string) (l : list KeyValue) :
  ~ In k (map Key l) -> count_key k l = 0.
Proof.
  unfold count_key. induction l as [|a l IH]; cbn [map In filter]; [reflexivity|].
  intro H. destruct (String.eqb_spec (Key a) k); [tauto|]. apply IH. tauto.
Qed.

Lemma identity_attributes_no_hostname (X : Collaborators) (c : Config.t) :
  count_key "host.name" (identity_attributes X c) = 0.
Proof.
  unfold identity_attributes.
  destruct (len0 (Config.ServiceName c)), (len0 (Config.ServiceVersion c));
    reflexivity.
Qed.

Lemma caller_attributes_split (c : Config.t) (m1 m2 : GoMap) (k x : string) :
  Config.resourceAttributes c = m1 ++ (k, x) :: m2 -> x <> "" ->
  caller_attributes c
  = map (fun kv => KV (fst kv) (snd kv)) (filter (fun kv => negb (len0 (snd kv))) m1)
    ++ KV k x
    :: map (fun kv => KV (fst kv) (snd kv)) (filter (fun kv => negb (len0 (snd kv))) m2).
Proof.
  intros Hm Hx. unfold caller_attributes. rewrite Hm, filter_app, map_app.
  cbn [filter snd]. destruct (len0 x) eqn:E; [now apply len0_empty in E|].
  reflexivity.
Qed.

Lemma hostname_given_by_caller (X : Collaborators) (c : Config.t) (x : string) :
  In ("host.name", x) (Config.resourceAttributes c) -> x <> "" ->
  hostname_given X c = true.
Proof.
  intros Hin Hx. unfold hostname_given. apply orb_true_iff. right.
  apply existsb_exists. exists ("host.name", x). split; [exact Hin|].
  cbn [fst snd]. destruct (len0 x) eqn:E; [now apply len0_empty in E|].
  reflexivity.
Qed.

(** C3. When the caller's resource attributes hold the key host.name with a
    non-empty value, [newResource] leaves the host-name detection out,
    whatever [os.Hostname] would answer: the slice for [resource.New] ends
    with the caller's attributes, the attributes the builder adds hold the
    key host.name once, nothing is logged, and the resource that is built
    holds the caller's value for host.name. *)
Theorem caller_hostname_suppresses_detection
    (X : Collaborators) (c : Config.t) (w : World) (x : string) :
  map_wf (Config.resourceAttributes c) ->
  In ("host.name", x) (Config.resourceAttributes c) ->
  x <> "" ->
  let attributes :=
    attrs (resource_Environment X) ++ identity_attributes X c ++ caller_attributes c in
  newResource_attributes X c w = Ret attributes w
  /\ count_key "host.name" (identity_attributes X c ++ caller_attributes c) = 1
  /\ newResource X c w = Ret (resource_New attributes) w
  /\ resource_get (Some (resource_New attributes)) "host.name" = Some x.
Proof.
  intros Hwf Hin Hx attributes.
  pose proof (hostname_given_by_caller X c x Hin Hx) as Hgiven.
  assert (Hrun : newResource_attributes X c w = Ret attributes w).
  { rewrite newResource_attributes_run. unfold resource_attributes_spec,
      detected_hostname. rewrite Hgiven, app_nil_r. reflexivity. }
  destruct (in_split _ _ Hin) as [m1 [m2 Hm]].
  unfold map_wf in Hwf. rewrite Hm, map_app in Hwf. cbn [map fst] in Hwf.
  pose proof (NoDup_remove_2 _ _ _ Hwf) as Hnotin.
  assert (H1 : ~ In "host.name" (map fst m1)) by (intro; apply Hnotin, in_or_app; tauto).
  assert (H2 : ~ In "host.name" (map fst m2)) by (intro; apply Hnotin, in_or_app; tauto).
  pose proof (caller_attributes_split c m1 m2 "host.name" x Hm Hx) as Hsplit.
  split; [exact Hrun|]. split; [|split].
  - rewrite count_key_app, identity_attributes_no_hostname, Hsplit.
    rewrite count_key_app.
    change (count_key "host.name" (KV "host.name" x :: ?l))
      with (S (count_key "host.name" l)).
    rewrite !count_key_absent by now apply caller_attributes_without.
    reflexivity.
  - unfold newResource, bind. rewrite Hrun. reflexivity.
  - unfold attributes. rewrite Hsplit, !app_assoc.
    apply resource_New_last_wins; [discriminate|].
    apply has_key_false. now apply caller_attributes_without.
Qed.

Lemma caller_hostname_suppresses_detection_witness :
  newResource_attributes hostless
    (set_resourceAttributes [("team", "core"); ("host.name", "X")] env_defaults)
    fresh_world
  = Ret [KV "host.name" "from-env";
         KV "telemetry.sdk.name" "cfobservability";
         KV "telemetry.sdk.language" "go";
         KV "telemetry.sdk.version" "0.1.0";
         KV "team" "core";
         KV "host.name" "X"] fresh_world
  /\ resource_get
       (Some (resource_New
                [KV "host.name" "from-env";
                 KV "telemetry.sdk.name" "cfobservability";
                 KV "telemetry.sdk.language" "go";
                 KV "telemetry.sdk.version" "0.1.0";
                 KV "team" "core";
                 KV "host.name" "X"])) "host.name"
     = Some "X".
Proof.
  assert (Hwf : map_wf [("team", "core"); ("host.name", "X")]).
  { unfold map_wf. simpl. repeat constructor; simpl; intuition discriminate. }
  assert (Hin : In ("host.name", "X") [("team", "core"); ("host.name", "X")]).
  { simpl. auto. }
  assert (Hx : "X" <> "") by discriminate.
  pose proof (caller_hostname_suppresses_detection hostless
                (set_resourceAttributes [("team", "core"); ("host.name", "X")] env_defaults)
                fresh_world "X" Hwf Hin Hx) as H.
  split; [exact (proj1 H) | exact (proj2 (proj2 (proj2 H)))].
Defined.

(** ** The launcher *)

Lemma default_Headers_fields (c : Config.t) :
  Config.SpanExporterEndpoint (default_Headers c) = Config.SpanExporterEndpoint c
  /\ Config.MetricsEnabled (default_Headers c) = Config.MetricsEnabled c
  /\ Config.context (default_Headers c) = Config.context c
  /\ Config.errorHandler (default_Headers c) = Config.errorHandler c
  /\ Config.Propagators (default_Headers c) = Config.Propagators c
  /\ validateConfiguration (default_Headers c) = validateConfiguration c.
Proof.
  unfold default_Headers. destruct (Config.Headers c); repeat split; reflexivity.
Qed.

Lemma before_setups_calls (c : Config.t) (w : World) :
  calls (before_setups c w) = calls w.
Proof.
  unfold before_setups.
  destruct (Config.errorHandler c), (String.eqb (Config.LogLevel c) "debug");
    reflexivity.
Qed.

Lemma ConfigureOpentelemetry_run
    (X : Collaborators) (opts : list Option) (w w1 : World) (c : Config.t) :
  newConfig X opts w = Ret c w1 ->
  validateConfiguration c = None ->
  ConfigureOpentelemetry X opts w
  = run_setups [setupTracing X; setupMetrics X] (default_Headers c)
      (mkLauncher (default_Headers c) []) (before_setups c w1).
Proof.
  intros Hc Hv. unfold ConfigureOpentelemetry, bind at 1. rewrite Hc.
  destruct (default_Headers_fields c) as [_ [_ [_ [Hh [_ Hv']]]]].
  rewrite Hv', Hv. unfold bind, before_setups. rewrite Hh.
  destruct (String.eqb (Config.LogLevel c) "debug"), (Config.errorHandler c);
    reflexivity.
Qed.

Lemma invoke_calls (X : Collaborators) (f : ShutdownFunc) (ctx : Context) (w : World) :
  exists err w',
    invoke X f ctx w = Ret err w'
    /\ calls w' = calls w ++ shutdown_calls ctx f.
Proof.
  destruct f as [bsp spanExporter | p]; cbn [invoke shutdown_calls];
    unfold bind, call, add_call; do 2 eexists; split; try reflexivity.
  cbn [calls]. now rewrite <- app_assoc.
Qed.

(** The shutdown walk invokes the functions from the first on, in the order
    of the list; when it returns it has invoked every one. *)
Lemma shutdown_all_calls (X : Collaborators) (fs : list ShutdownFunc)
    (ctx : Context) (w : World) :
  exists n,
    n <= List.length fs
    /\ (fs <> [] -> 1 <= n)
    /\ calls (final_world (shutdown_all X fs ctx w))
       = calls w ++ flat_map (shutdown_calls ctx) (firstn n fs)
    /\ (forall w', shutdown_all X fs ctx w = Ret tt w' -> n = List.length fs).
Proof.
  revert w. induction fs as [|f fs IH]; intro w.
  - exists 0. cbn. rewrite app_nil_r. repeat split; auto; congruence.
  - cbn [shutdown_all]. unfold bind.
    destruct (invoke_calls X f ctx w) as [err [w1 [Hf Hcalls]]]. rewrite Hf.
    destruct err as [err|].
    + exists 1. cbn [List.length firstn flat_map final_world Fatal add_log calls].
      rewrite app_nil_r. repeat split; try lia; try assumption.
      intros w' H. discriminate H.
    + destruct (IH w1) as [n [Hn [_ [Hc Hret]]]]. exists (S n).
      cbn [List.length firstn flat_map]. repeat split; try lia.
      * rewrite Hc, Hcalls, <- app_assoc. reflexivity.
      * intros w' H. now rewrite (Hret w' H).
Qed.

(** ** The walk over the shutdown functions, answer by answer *)

Lemma invoke_answer (X : Collaborators) (f : ShutdownFunc) (ctx : Context) (w : World) :
  invoke X f ctx w
  = Ret (shutdown_answer X f ctx (calls w))
        (mkWorld (globalTracerProvider w) (globalTextMapPropagator w)
                 (globalErrorHandler w) (log w)
                 (calls w ++ shutdown_calls ctx f)).
Proof.
  destruct f as [bsp spanExporter | p]; cbn [invoke shutdown_calls shutdown_answer];
    unfold bind, call, add_call; cbn [calls globalTracerProvider
      globalTextMapPropagator globalErrorHandler log].
  - rewrite <- app_assoc. reflexivity.
  - reflexivity.
Qed.

Lemma answer_at_head (X : Collaborators) (f : ShutdownFunc) (fs : list ShutdownFunc)
    (ctx : Context) (h : list Call) :
  answer_at X (f :: fs) ctx h 0 = shutdown_answer X f ctx h.
Proof.
  unfold answer_at. cbn [nth_error firstn flat_map]. now rewrite app_nil_r.
Qed.

Lemma answer_at_tail (X : Collaborators) (f : ShutdownFunc) (fs : list ShutdownFunc)
    (ctx : Context) (h : list Call) (i : nat) :
  answer_at X (f :: fs) ctx h (S i)
  = answer_at X fs ctx (h ++ shutdown_calls ctx f) i.
Proof.
  unfold answer_at. cbn [nth_error firstn flat_map].
  now rewrite app_assoc.
Qed.

Lemma shutdown_all_returns (X : Collaborators) (fs : list ShutdownFunc)
    (ctx : Context) (w : World) :
  (forall i, i < List.length fs -> answer_at X fs ctx (calls w) i = None) ->
  shutdown_all X fs ctx w
  = Ret tt (mkWorld (globalTracerProvider w) (globalTextMapPropagator w)
                    (globalErrorHandler w) (log w)
                    (calls w ++ flat_map (shutdown_calls ctx) fs)).
Proof.
  revert w. induction fs as [|f fs IH]; intros w H.
  - cbn. rewrite app_nil_r. now destruct w.
  - cbn [shutdown_all]. unfold bind. rewrite invoke_answer.
    rewrite <- answer_at_head with (fs := fs), H by (cbn; lia).
    rewrite IH.
    + cbn [globalTracerProvider globalTextMapPropagator globalErrorHandler log
           calls flat_map]. now rewrite <- app_assoc.
    + intros i Hi. cbn [calls]. rewrite <- answer_at_tail. apply H. cbn. lia.
Qed.

Lemma shutdown_all_fatal (X : Collaborators) (fs : list ShutdownFunc)
    (ctx : Context) (w : World) (n : nat) (err : error) :
  n < List.length fs ->
  (forall i, i < n -> answer_at X fs ctx (calls w) i = None) ->
  answer_at X fs ctx (calls w) n = Some err ->
  shutdown_all X fs ctx w
  = Exit ("failed to stop exporter: " ++ err)%string
         (mkWorld (globalTracerProvider w) (globalTextMapPropagator w)
                  (globalErrorHandler w)
                  (log w ++ [(FatalLevel, ("failed to stop exporter: " ++ err)%string)])
                  (calls w ++ flat_map (shutdown_calls ctx) (firstn (S n) fs))).
Proof.
  revert w n. induction fs as [|f fs IH]; intros w n Hn Hbefore Hat.
  - cbn in Hn. lia.
  - cbn [shutdown_all]. unfold bind. rewrite invoke_answer.
    destruct n as [|n].
    + rewrite answer_at_head in Hat. rewrite Hat. unfold Fatal, add_log.
      cbn [firstn flat_map globalTracerProvider globalTextMapPropagator
           globalErrorHandler log calls]. now rewrite app_nil_r.
    + rewrite <- answer_at_head with (fs := fs), Hbefore by lia.
      rewrite (IH _ n).
      * cbn [globalTracerProvider globalTextMapPropagator globalErrorHandler log
             calls firstn flat_map]. now rewrite <- app_assoc.
      * cbn in Hn. lia.
      * intros i Hi. cbn [calls]. rewrite <- answer_at_tail. apply Hbefore. lia.
      * cbn [calls]. now rewrite <- answer_at_tail.
Qed.

Lemma first_error (X : Collaborators) (fs : list ShutdownFunc)
    (ctx : Context) (h : list Call) :
  (forall i, i < List.length fs -> answer_at X fs ctx h i = None)
  \/ (exists n err,
        n < List.length fs
        /\ (forall i, i < n -> answer_at X fs ctx h i = None)
        /\ answer_at X fs ctx h n = Some err).
Proof.
  revert h. induction fs as [|f fs IH]; intro h.
  - left. intros i Hi. cbn in Hi. lia.
  - destruct (shutdown_answer X f ctx h) as [err|] eqn:Hf.
    + right. exists 0, err. cbn [List.length]. split; [lia|].
      split; [intros i Hi; lia | now rewrite answer_at_head].
    + destruct (IH (h ++ shutdown_calls ctx f)) as [Hall | [n [err [Hn [Hbefore Hat]]]]].
      * left. intros [|i] Hi; [now rewrite answer_at_head|].
        rewrite answer_at_tail. apply Hall. cbn in Hi. lia.
      * right. exists (S n), err. cbn [List.length]. split; [lia|]. split.
        -- intros [|i] Hi; [now rewrite answer_at_head|].
           rewrite answer_at_tail. apply Hbefore. lia.
        -- now rewrite answer_at_tail.
Qed.

Lemma run_setups_cons (setup : setupFunc) (rest : list setupFunc)
    (c : Config.t) (ls : Launcher) (w : World) :
  run_setups (setup :: rest) c ls w
  = match setup c w with
    | Ret r w' =>
        match snd r with
        | Some err => Fatal ("setup error: " ++ err)%string w'
        | None =>
            match fst r with
            | Some shutdown =>
                run_setups rest c
                  (mkLauncher (config ls) (shutdownFuncs ls ++ [shutdown])) w'
            | None => run_setups rest c ls w'
            end
        end
    | Exit msg w' => Exit msg w'
    end.
Proof.
  cbn [run_setups]. unfold bind. destruct (setup c w) as [r w'|msg w']; [|reflexivity].
  destruct (snd r); [reflexivity|]. destruct (fst r); reflexivity.
Qed.

Lemma setupTracing_disabled (X : Collaborators) (c : Config.t) (w : World) :
  Config.SpanExporterEndpoint c = "" ->
  setupTracing X c w
  = Ret (None, None)
        (add_log DebugLevel "tracing is disabled by configuration: no endpoint set" w).
Proof.
  intro H. unfold setupTracing. rewrite H. reflexivity.
Qed.




Lemma NewTracePipeline_success
    (X : Collaborators) (ctx : Context) (c : PipelineConfig.t) (w : World) :
  let spanExporter :=
    mkExporter (PipelineConfig.Endpoint c) (PipelineConfig.Insecure c)
               (PipelineConfig.Headers c) in
  let bsp := mkBSP spanExporter (PipelineConfig.BatchTimeout c) in
  otlptrace_New X ctx spanExporter (calls w) = None ->
  collect_propagators (PipelineConfig.Propagators c) <> [] ->
  exists w',
    NewTracePipeline X ctx c w = Ret (Some (TraceShutdown bsp spanExporter), None) w'
    /\ calls w' = calls w ++ [Call_newTraceExporter ctx spanExporter].
Proof.
  intros spanExporter bsp Hexp Hprops.
  unfold NewTracePipeline, newTraceExporter, bind, call, ret. cbn [fst snd].
  fold spanExporter. rewrite Hexp. unfold configurePropagators.
  destruct (collect_propagators (PipelineConfig.Propagators c)) as [|prop props];
    [congruence|].
  cbn [List.length Nat.eqb]. unfold bind, otel_SetTextMapPropagator,
    otel_SetTracerProvider, ret.
  eexists. split; reflexivity.
Qed.

(** C6. Let the configuration be valid, with a span endpoint and metrics
    enabled, and let both factories succeed: the span exporter is built, a
    propagator is composed, and the metrics factory answers with a shutdown
    function.  Then [ConfigureOpentelemetry] registers the shutdown function
    of the trace pipeline first and that of the metrics pipeline second, and
    [ShutdownContext] invokes them in that order: it shuts the processor
    and the exporter of the trace pipeline down; if the exporter answers
    with an error the process ends there with that error; otherwise it
    shuts the metrics pipeline down, ends the process if that answers with
    an error, and returns if it does not. *)
Theorem shutdown_order_is_registration_order
    (X : Collaborators) (opts : list Option) (w w1 : World) (c : Config.t)
    (p : MetricsPipeline) :
  let c' := default_Headers c in
  let spanExporter :=
    mkExporter (Config.SpanExporterEndpoint c') (Config.SpanExporterEndpointInsecure c')
               (Config.Headers c') in
  let bsp := mkBSP spanExporter (Config.BatchTimeout c') in
  newConfig X opts w = Ret c w1 ->
  validateConfiguration c = None ->
  Config.SpanExporterEndpoint c <> "" ->
  Config.MetricsEnabled c = true ->
  otlptrace_New X (Config.context c) spanExporter (calls w1) = None ->
  collect_propagators (Config.Propagators c) <> [] ->
  NewMetricsPipeline_result X (Config.context c) (metricsPipelineConfig c')
    (calls w1 ++ [Call_newTraceExporter (Config.context c) spanExporter])
  = (Some p, None) ->
  exists w2,
    ConfigureOpentelemetry X opts w
    = Ret (mkLauncher c' [TraceShutdown bsp spanExporter; MetricsShutdown p]) w2
    /\ forall ctx w3,
         ShutdownContext X
           (mkLauncher c' [TraceShutdown bsp spanExporter; MetricsShutdown p])
           ctx w3
         = match spanExporter_Shutdown X spanExporter ctx
                   (calls w3 ++ [Call_bsp_Shutdown bsp ctx]) with
           | Some err =>
               Exit ("failed to stop exporter: " ++ err)%string
                 (mkWorld (globalTracerProvider w3) (globalTextMapPropagator w3)
                    (globalErrorHandler w3)
                    (log w3 ++ [(FatalLevel, ("failed to stop exporter: " ++ err)%string)])
                    (calls w3 ++ [Call_bsp_Shutdown bsp ctx;
                                  Call_spanExporter_Shutdown spanExporter ctx]))
           | None =>
               match metrics_shutdown X p ctx
                       (calls w3 ++ [Call_bsp_Shutdown bsp ctx;
                                     Call_spanExporter_Shutdown spanExporter ctx]) with
               | Some err =>
                   Exit ("failed to stop exporter: " ++ err)%string
                     (mkWorld (globalTracerProvider w3) (globalTextMapPropagator w3)
                        (globalErrorHandler w3)
                        (log w3 ++ [(FatalLevel, ("failed to stop exporter: " ++ err)%string)])
                        (calls w3 ++ [Call_bsp_Shutdown bsp ctx;
                                      Call_spanExporter_Shutdown spanExporter ctx;
                                      Call_metrics_shutdown p ctx]))
               | None =>
                   Ret tt
                     (mkWorld (globalTracerProvider w3) (globalTextMapPropagator w3)
                        (globalErrorHandler w3) (log w3)
                        (calls w3 ++ [Call_bsp_Shutdown bsp ctx;
                                      Call_spanExporter_Shutdown spanExporter ctx;
                                      Call_metrics_shutdown p ctx]))
               end
           end.
Proof.
  intros c' spanExporter bsp Hc Hv Hspan Hen Hexp Hprops Hfactory.
  destruct (default_Headers_fields c) as [Hs [Hm [Hctx [_ [Hp _]]]]].
  fold c' in Hs, Hm, Hctx, Hp.
  rewrite (ConfigureOpentelemetry_run X opts w w1 c Hc Hv). fold c'.
  rewrite run_setups_cons. unfold setupTracing. rewrite Hs.
  destruct (String.eqb_spec (Config.SpanExporterEndpoint c) "") as [E|_];
    [contradiction|].
  destruct (NewTracePipeline_success X (Config.context c') (tracePipelineConfig c')
              (before_setups c w1)) as [wt [Ht Hcalls]].
  { cbn [tracePipelineConfig PipelineConfig.Endpoint PipelineConfig.Insecure
         PipelineConfig.Headers]. now rewrite before_setups_calls, Hctx. }
  { cbn [tracePipelineConfig PipelineConfig.Propagators]. now rewrite Hp. }
  rewrite Ht. cbn [fst snd]. rewrite run_setups_cons.
  unfold setupMetrics. rewrite Hm, Hen. cbn [negb].
  unfold NewMetricsPipeline, call. rewrite Hcalls, before_setups_calls.
  cbn [tracePipelineConfig PipelineConfig.Endpoint PipelineConfig.Insecure
       PipelineConfig.Headers PipelineConfig.BatchTimeout].
  rewrite Hctx. fold spanExporter. rewrite Hfactory.
  cbn [fst snd option_map run_setups config shutdownFuncs app].
  eexists. split; [reflexivity|].
  intros ctx w3. unfold ShutdownContext. cbn [shutdownFuncs shutdown_all].
  unfold bind at 1. rewrite invoke_answer. cbn [shutdown_answer shutdown_calls].
  destruct (spanExporter_Shutdown X spanExporter ctx _) as [err|].
  - reflexivity.
  - unfold bind. rewrite invoke_answer.
    cbn [shutdown_answer shutdown_calls calls globalTracerProvider
         globalTextMapPropagator globalErrorHandler log].
    rewrite <- !app_assoc. cbn [app].
    destruct (metrics_shutdown X p ctx _) as [err|]; reflexivity.
Qed.

Lemma shutdown_order_is_registration_order_witness :
  (exists w2,
     ConfigureOpentelemetry quiet [WithServiceName "billing"] fresh_world
     = Ret (mkLauncher
              (default_Headers
                 (set_Resource
                    (Some (resource_New
                             [KV "telemetry.sdk.name" "cfobservability";
                              KV "telemetry.sdk.language" "go";
                              KV "telemetry.sdk.version" "0.1.0";
                              KV "service.name" "billing";
                              KV "host.name" "build-host"]))
                    (set_ServiceName "billing"
                       (set_errorHandler (Some defaultHandler)
                          (set_context Background
                             (set_BatchTimeout 5000000000 env_defaults))))))
              [TraceShutdown sample_bsp sample_exporter; MetricsShutdown 7]) w2)
  /\ ShutdownContext quiet
       (mkLauncher
          (default_Headers
             (set_Resource
                (Some (resource_New
                         [KV "telemetry.sdk.name" "cfobservability";
                          KV "telemetry.sdk.language" "go";
                          KV "telemetry.sdk.version" "0.1.0";
                          KV "service.name" "billing";
                          KV "host.name" "build-host"]))
                (set_ServiceName "billing"
                   (set_errorHandler (Some defaultHandler)
                      (set_context Background
                         (set_BatchTimeout 5000000000 env_defaults))))))
          [TraceShutdown sample_bsp sample_exporter; MetricsShutdown 7])
       (CallerContext 4) fresh_world
     = Ret tt
         (mkWorld None None None []
            [Call_bsp_Shutdown sample_bsp (CallerContext 4);
             Call_spanExporter_Shutdown sample_exporter (CallerContext 4);
             Call_metrics_shutdown 7 (CallerContext 4)]).
Proof.
  destruct (shutdown_order_is_registration_order quiet
              [WithServiceName "billing"] fresh_world fresh_world
              (set_Resource
                 (Some (resource_New
                          [KV "telemetry.sdk.name" "cfobservability";
                           KV "telemetry.sdk.language" "go";
                           KV "telemetry.sdk.version" "0.1.0";
                           KV "service.name" "billing";
                           KV "host.name" "build-host"]))
                 (set_ServiceName "billing"
                    (set_errorHandler (Some defaultHandler)
                       (set_context Background
                          (set_BatchTimeout 5000000000 env_defaults)))))
              7 eq_refl eq_refl)
    as [w2 [Hrun Hshut]]; try reflexivity; try (simpl; discriminate).
  split; [exists w2; exact Hrun|].
  exact (Hshut (CallerContext 4) fresh_world).
Defined.

(** ** Shutting down twice *)

(** C1, as the claim words it, fails.  A launcher with both pipelines, as
    [ConfigureOpentelemetry] returns it for the sample process, is shut down
    in a fresh world and then once more.  Both shutdowns return.  The second
    one does not find an empty list: it closes the processor, the exporter
    and the metrics pipeline again, so it is no no-op. *)
Lemma second_shutdown_invokes_callbacks_again :
  Shutdown quiet
    (mkLauncher env_defaults
       [TraceShutdown sample_bsp sample_exporter; MetricsShutdown 7])
    fresh_world
  = Ret tt
      (mkWorld None None None []
         [Call_bsp_Shutdown sample_bsp Background;
          Call_spanExporter_Shutdown sample_exporter Background;
          Call_metrics_shutdown 7 Background])
  /\ Shutdown quiet
       (mkLauncher env_defaults
          [TraceShutdown sample_bsp sample_exporter; MetricsShutdown 7])
       (mkWorld None None None []
          [Call_bsp_Shutdown sample_bsp Background;
           Call_spanExporter_Shutdown sample_exporter Background;
           Call_metrics_shutdown 7 Background])
     = Ret tt
         (mkWorld None None None []
            [Call_bsp_Shutdown sample_bsp Background;
             Call_spanExporter_Shutdown sample_exporter Background;
             Call_metrics_shutdown 7 Background;
             Call_bsp_Shutdown sample_bsp Background;
             Call_spanExporter_Shutdown sample_exporter Background;
             Call_metrics_shutdown 7 Background])
  /\ Shutdown quiet
       (mkLauncher env_defaults
          [TraceShutdown sample_bsp sample_exporter; MetricsShutdown 7])
       (mkWorld None None None []
          [Call_bsp_Shutdown sample_bsp Background;
           Call_spanExporter_Shutdown sample_exporter Background;
           Call_metrics_shutdown 7 Background])
     <> Ret tt
          (mkWorld None None None []
             [Call_bsp_Shutdown sample_bsp Background;
              Call_spanExporter_Shutdown sample_exporter Background;
              Call_metrics_shutdown 7 Background]).
Proof.
  split; [reflexivity|]. split; [reflexivity|].
  intro H. discriminate H.
Qed.

(** C1, amended.  A shutdown reads the list of shutdown functions and never
    changes it.  After a first shutdown that returned, a second one walks
    the same list from its first function on, in the same order: it is a
    no-op exactly when the launcher holds no shutdown function, it invokes
    the first function again whenever there is one, and when it returns it
    has invoked every function again.  If every function answers without
    error on this second walk the shutdown returns; if one answers with an
    error, the first such answer ends the process through the fatal log,
    with that error, and the functions after it are not invoked. *)
Theorem second_shutdown_walks_the_same_list
    (X : Collaborators) (ls : Launcher) (ctx1 ctx2 : Context) (w w1 : World) :
  ShutdownContext X ls ctx1 w = Ret tt w1 ->
  calls w1 = calls w ++ flat_map (shutdown_calls ctx1) (shutdownFuncs ls)
  /\ (shutdownFuncs ls = [] -> ShutdownContext X ls ctx2 w1 = Ret tt w1)
  /\ (exists n,
        n <= List.length (shutdownFuncs ls)
        /\ (shutdownFuncs ls <> [] -> 1 <= n)
        /\ calls (final_world (ShutdownContext X ls ctx2 w1))
           = calls w1 ++ flat_map (shutdown_calls ctx2) (firstn n (shutdownFuncs ls)))
  /\ (forall w2,
        ShutdownContext X ls ctx2 w1 = Ret tt w2 ->
        calls w2 = calls w1 ++ flat_map (shutdown_calls ctx2) (shutdownFuncs ls))
  /\ ((forall i, i < List.length (shutdownFuncs ls) ->
                 answer_at X (shutdownFuncs ls) ctx2 (calls w1) i = None) ->
      ShutdownContext X ls ctx2 w1
      = Ret tt (mkWorld (globalTracerProvider w1) (globalTextMapPropagator w1)
                        (globalErrorHandler w1) (log w1)
                        (calls w1 ++ flat_map (shutdown_calls ctx2) (shutdownFuncs ls))))
  /\ (forall n err,
        n < List.length (shutdownFuncs ls) ->
        (forall i, i < n -> answer_at X (shutdownFuncs ls) ctx2 (calls w1) i = None) ->
        answer_at X (shutdownFuncs ls) ctx2 (calls w1) n = Some err ->
        ShutdownContext X ls ctx2 w1
        = Exit ("failed to stop exporter: " ++ err)%string
            (mkWorld (globalTracerProvider w1) (globalTextMapPropagator w1)
               (globalErrorHandler w1)
               (log w1 ++ [(FatalLevel, ("failed to stop exporter: " ++ err)%string)])
               (calls w1 ++ flat_map (shutdown_calls ctx2)
                             (firstn (S n) (shutdownFuncs ls))))).
Proof.
  unfold ShutdownContext. intro Hfirst.
  split; [|split; [|split; [|split; [|split]]]].
  - destruct (shutdown_all_calls X (shutdownFuncs ls) ctx1 w) as [n [_ [_ [Hc Hret]]]].
    rewrite (Hret w1 Hfirst), firstn_all, Hfirst in Hc. exact Hc.
  - intro Hnil. rewrite Hnil. reflexivity.
  - destruct (shutdown_all_calls X (shutdownFuncs ls) ctx2 w1) as [n [Hn [Hpos [Hc _]]]].
    exists n. auto.
  - intros w2 Hsecond.
    destruct (shutdown_all_calls X (shutdownFuncs ls) ctx2 w1) as [n [_ [_ [Hc Hret]]]].
    rewrite (Hret w2 Hsecond), firstn_all, Hsecond in Hc. exact Hc.
  - apply shutdown_all_returns.
  - apply shutdown_all_fatal.
Qed.

Lemma second_shutdown_walks_the_same_list_witness :
  ShutdownContext closes_once
    (mkLauncher env_defaults
       [TraceShutdown sample_bsp sample_exporter; MetricsShutdown 7])
    (CallerContext 2)
    (mkWorld None None None []
       [Call_bsp_Shutdown sample_bsp Background;
        Call_spanExporter_Shutdown sample_exporter Background;
        Call_metrics_shutdown 7 Background])
  = Exit "failed to stop exporter: exporter: already shut down"
      (mkWorld None None None
         [(FatalLevel, "failed to stop exporter: exporter: already shut down")]
         [Call_bsp_Shutdown sample_bsp Background;
          Call_spanExporter_Shutdown sample_exporter Background;
          Call_metrics_shutdown 7 Background;
          Call_bsp_Shutdown sample_bsp (CallerContext 2);
          Call_spanExporter_Shutdown sample_exporter (CallerContext 2)]).
Proof.
  destruct (second_shutdown_walks_the_same_list closes_once
              (mkLauncher env_defaults
                 [TraceShutdown sample_bsp sample_exporter; MetricsShutdown 7])
              Background (CallerContext 2) fresh_world
              (mkWorld None None None []
                 [Call_bsp_Shutdown sample_bsp Background;
                  Call_spanExporter_Shutdown sample_exporter Background;
                  Call_metrics_shutdown 7 Background])
              eq_refl) as [_ [_ [_ [_ [_ Hfatal]]]]].
  apply (Hfatal 0 "exporter: already shut down").
  - simpl. lia.
  - intros i Hi. lia.
  - reflexivity.
Defined.

(** * Further properties *)

(** ** Propagators and the trace pipeline *)

(** X1. When the table holds at least one of the requested keys,
    [configurePropagators] returns nil and registers the composite of the
    codecs of the supported keys, in the order of the request and as often
    as they are requested; no other registration, log entry or call is
    made. *)
Theorem configurePropagators_installs_supported (c : PipelineConfig.t) (w : World) :
  Exists (fun key => lookup propagatorsMap key <> None) (PipelineConfig.Propagators c) ->
  configurePropagators c w
  = Ret None
        (mkWorld (globalTracerProvider w)
           (Some (supported_propagators (PipelineConfig.Propagators c)))
           (globalErrorHandler w) (log w) (calls w))
  /\ supported_propagators (PipelineConfig.Propagators c) <> [].
Proof.
  intro H. pose proof (supported_propagators_nonempty _ H) as Hne.
  split; [|exact Hne].
  unfold configurePropagators. rewrite collect_propagators_supported.
  destruct (supported_propagators (PipelineConfig.Propagators c)); [congruence|].
  reflexivity.
Qed.

Lemma configurePropagators_installs_supported_witness :
  configurePropagators
    (PipelineConfig.mk "" false None None "" 0
       ["tracecontext"; "zipkin"; "baggage"; "tracecontext"])
    fresh_world
  = Ret None
        (mkWorld None (Some [TraceContext; Baggage; TraceContext]) None [] []).
Proof.
  apply (configurePropagators_installs_supported
           (PipelineConfig.mk "" false None None "" 0
              ["tracecontext"; "zipkin"; "baggage"; "tracecontext"])
           fresh_world).
  apply Exists_cons_hd. discriminate.
Defined.

(** X2. [NewTracePipeline] always returns, with exactly one of a shutdown
    function and an error, after one attempt to build the exporter.  If the
    exporter cannot be built the error carries the prefix of the span
    exporter and nothing is registered; if no propagator is supported the
    error is that of [configurePropagators] and nothing is registered;
    otherwise the tracer provider over the batch processor and the resource
    of the configuration is registered together with the propagators. *)
Theorem NewTracePipeline_outcome
    (X : Collaborators) (ctx : Context) (c : PipelineConfig.t) (w : World) :
  let spanExporter :=
    mkExporter (PipelineConfig.Endpoint c) (PipelineConfig.Insecure c)
               (PipelineConfig.Headers c) in
  let bsp := mkBSP spanExporter (PipelineConfig.BatchTimeout c) in
  exists r w',
    NewTracePipeline X ctx c w = Ret r w'
    /\ calls w' = calls w ++ [Call_newTraceExporter ctx spanExporter]
    /\ log w' = log w
    /\ globalErrorHandler w' = globalErrorHandler w
    /\ ((exists e,
           otlptrace_New X ctx spanExporter (calls w) = Some e
           /\ r = (None, Some ("failed to create span exporter: " ++ e)%string)
           /\ same_registrations w w')
        \/ (otlptrace_New X ctx spanExporter (calls w) = None
            /\ supported_propagators (PipelineConfig.Propagators c) = []
            /\ r = (None, Some unsupported_propagators)
            /\ same_registrations w w')
        \/ (otlptrace_New X ctx spanExporter (calls w) = None
            /\ supported_propagators (PipelineConfig.Propagators c) <> []
            /\ r = (Some (TraceShutdown bsp spanExporter), None)
            /\ globalTracerProvider w' = Some (mkTP bsp (PipelineConfig.Resource c))
            /\ globalTextMapPropagator w'
               = Some (supported_propagators (PipelineConfig.Propagators c)))).
Proof.
  intros spanExporter bsp.
  unfold NewTracePipeline, newTraceExporter, bind, call, ret. cbn [fst snd].
  fold spanExporter.
  destruct (otlptrace_New X ctx spanExporter (calls w)) as [e|] eqn:Hexp.
  - do 2 eexists. split; [reflexivity|]. repeat split.
    left. exists e. repeat split.
  - unfold configurePropagators. rewrite collect_propagators_supported.
    destruct (supported_propagators (PipelineConfig.Propagators c)) as [|prop props] eqn:Hs.
    + cbn [List.length Nat.eqb]. unfold ret.
      do 2 eexists. split; [reflexivity|]. repeat split.
      right. left. repeat split.
    + cbn [List.length Nat.eqb].
      unfold bind, otel_SetTextMapPropagator, otel_SetTracerProvider, ret.
      do 2 eexists. split; [reflexivity|]. repeat split.
      right. right. repeat split. discriminate.
Qed.

(** X3. [setupTracing] answers with neither a shutdown function nor an
    error exactly when the span endpoint is empty; in that case it calls no
    collaborator and registers nothing. *)
Theorem setupTracing_disabled_iff (X : Collaborators) (c : Config.t) (w : World) :
  (Config.SpanExporterEndpoint c = ""
   <-> exists w', setupTracing X c w = Ret (None, None) w')
  /\ (Config.SpanExporterEndpoint c = "" ->
      calls (final_world (setupTracing X c w)) = calls w
      /\ same_registrations w (final_world (setupTracing X c w))).
Proof.
  split; [split|].
  - intro H. eexists. now apply setupTracing_disabled.
  - intros [w' H]. unfold setupTracing in H.
    destruct (String.eqb_spec (Config.SpanExporterEndpoint c) "") as [E|_]; [exact E|].
    exfalso.
    destruct (NewTracePipeline_outcome X (Config.context c) (tracePipelineConfig c) w)
      as [r [w'' [Hr [_ [_ [_ Hcases]]]]]].
    rewrite Hr in H. inversion H; subst.
    destruct Hcases as [[e [_ [Hres _]]] | [[_ [_ [Hres _]]] | [_ [_ [Hres _]]]]];
      discriminate Hres.
  - intro H. rewrite (setupTracing_disabled X c w H). repeat split.
Qed.

Lemma setupTracing_disabled_iff_witness :
  calls (final_world
           (setupTracing unreachable (set_SpanExporterEndpoint "" env_defaults)
              fresh_world)) = calls fresh_world
  /\ same_registrations fresh_world
       (final_world
          (setupTracing unreachable (set_SpanExporterEndpoint "" env_defaults)
             fresh_world)).
Proof.
  apply (setupTracing_disabled_iff unreachable
           (set_SpanExporterEndpoint "" env_defaults) fresh_world).
  reflexivity.
Defined.

(** ** Shutdown *)

Lemma invoke_world (X : Collaborators) (f : ShutdownFunc) (ctx : Context) (w : World) :
  exists err,
    invoke X f ctx w
    = Ret err (mkWorld (globalTracerProvider w) (globalTextMapPropagator w)
                       (globalErrorHandler w) (log w)
                       (calls w ++ shutdown_calls ctx f)).
Proof.
  destruct f as [bsp spanExporter | p]; cbn [invoke shutdown_calls];
    unfold bind, call, add_call; cbn [calls globalTracerProvider
      globalTextMapPropagator globalErrorHandler log]; eexists.
  - rewrite <- app_assoc. reflexivity.
  - reflexivity.
Qed.

Lemma shutdown_all_exit (X : Collaborators) (fs : list ShutdownFunc)
    (ctx : Context) (w w' : World) (msg : string) :
  shutdown_all X fs ctx w = Exit msg w' ->
  exists done f rest err,
    fs = done ++ f :: rest
    /\ msg = ("failed to stop exporter: " ++ err)%string
    /\ calls w' = calls w ++ flat_map (shutdown_calls ctx) (done ++ [f])
    /\ log w' = log w ++ [(FatalLevel, msg)]
    /\ same_registrations w w'.
Proof.
  revert w. induction fs as [|f fs IH]; intros w H; [discriminate H|].
  cbn [shutdown_all] in H. unfold bind in H.
  destruct (invoke_world X f ctx w) as [err Hf]. rewrite Hf in H.
  destruct err as [err|].
  - unfold Fatal, add_log in H. inversion H; subst.
    exists [], f, fs, err. cbn. rewrite app_nil_r. repeat split.
  - destruct (IH _ H) as [done [g [rest [err [Hfs [Hmsg [Hc [Hl Hreg]]]]]]]].
    exists (f :: done), g, rest, err. cbn [calls log] in Hc, Hl.
    repeat split; try tauto.
    + now rewrite Hfs.
    + rewrite Hc. cbn [app flat_map]. now rewrite <- app_assoc.
    + apply Hreg.
    + apply Hreg.
    + apply Hreg.
Qed.

Lemma shutdown_all_ret (X : Collaborators) (fs : list ShutdownFunc)
    (ctx : Context) (w w' : World) :
  shutdown_all X fs ctx w = Ret tt w' ->
  w' = mkWorld (globalTracerProvider w) (globalTextMapPropagator w)
               (globalErrorHandler w) (log w)
               (calls w ++ flat_map (shutdown_calls ctx) fs).
Proof.
  revert w. induction fs as [|f fs IH]; intros w H.
  - cbn in H. inversion H; subst. cbn. rewrite app_nil_r. now destruct w'.
  - cbn [shutdown_all] in H. unfold bind in H.
    destruct (invoke_world X f ctx w) as [err Hf]. rewrite Hf in H.
    destruct err as [err|]; [discriminate H|].
    rewrite (IH _ H). cbn [globalTracerProvider globalTextMapPropagator
      globalErrorHandler log calls flat_map]. now rewrite <- app_assoc.
Qed.

(** X4. A shutdown that ends the process has stopped at the first shutdown
    function that returned an error: every function before it was invoked
    and returned nil, it returned the error, none after it was invoked, and
    the fatal entry is the one entry logged and carries that error after
    the words failed to stop exporter. *)
Theorem ShutdownContext_stops_at_first_error
    (X : Collaborators) (ls : Launcher) (ctx : Context) (w w' : World) (msg : string) :
  ShutdownContext X ls ctx w = Exit msg w' ->
  exists n f err,
    nth_error (shutdownFuncs ls) n = Some f
    /\ (forall i, i < n -> answer_at X (shutdownFuncs ls) ctx (calls w) i = None)
    /\ shutdown_answer X f ctx
         (calls w ++ flat_map (shutdown_calls ctx) (firstn n (shutdownFuncs ls)))
       = Some err
    /\ msg = ("failed to stop exporter: " ++ err)%string
    /\ calls w'
       = calls w ++ flat_map (shutdown_calls ctx) (firstn (S n) (shutdownFuncs ls))
    /\ log w' = log w ++ [(FatalLevel, msg)].
Proof.
  unfold ShutdownContext. intro H.
  destruct (first_error X (shutdownFuncs ls) ctx (calls w))
    as [Hall | [n [err [Hn [Hbefore Hat]]]]].
  - rewrite (shutdown_all_returns X _ ctx w Hall) in H. discriminate H.
  - rewrite (shutdown_all_fatal X _ ctx w n err Hn Hbefore Hat) in H.
    inversion H; subst. clear H.
    unfold answer_at in Hat.
    destruct (nth_error (shutdownFuncs ls) n) as [f|] eqn:Hf; [|discriminate Hat].
    exists n, f, err. cbn [calls log]. auto 10.
Qed.

Lemma ShutdownContext_stops_at_first_error_witness :
  exists n f err,
    nth_error [TraceShutdown sample_bsp sample_exporter; MetricsShutdown 7] n = Some f
    /\ (forall i, i < n ->
          answer_at stuck [TraceShutdown sample_bsp sample_exporter; MetricsShutdown 7]
            Background (calls fresh_world) i = None)
    /\ shutdown_answer stuck f Background
         (calls fresh_world
          ++ flat_map (shutdown_calls Background)
               (firstn n [TraceShutdown sample_bsp sample_exporter; MetricsShutdown 7]))
       = Some err
    /\ "failed to stop exporter: exporter: timeout"
       = ("failed to stop exporter: " ++ err)%string
    /\ [Call_bsp_Shutdown sample_bsp Background;
        Call_spanExporter_Shutdown sample_exporter Background]
       = calls fresh_world
         ++ flat_map (shutdown_calls Background)
              (firstn (S n) [TraceShutdown sample_bsp sample_exporter; MetricsShutdown 7])
    /\ [(FatalLevel, "failed to stop exporter: exporter: timeout")]
       = log fresh_world ++ [(FatalLevel, "failed to stop exporter: exporter: timeout")].
Proof.
  apply (ShutdownContext_stops_at_first_error stuck
           (mkLauncher env_defaults
              [TraceShutdown sample_bsp sample_exporter; MetricsShutdown 7])
           Background fresh_world
           (mkWorld None None None
              [(FatalLevel, "failed to stop exporter: exporter: timeout")]
              [Call_bsp_Shutdown sample_bsp Background;
               Call_spanExporter_Shutdown sample_exporter Background])
           "failed to stop exporter: exporter: timeout").
  reflexivity.
Defined.

(** X6. When the span exporter and the metrics pipeline close without
    error, a shutdown returns and has invoked every shutdown function in
    order, whatever the batch span processor answers: its error never ends
    the process. *)
Theorem ShutdownContext_returns_despite_processor_errors
    (X : Collaborators) (ls : Launcher) (ctx : Context) (w : World) :
  (forall e c h, spanExporter_Shutdown X e c h = None) ->
  (forall p c h, metrics_shutdown X p c h = None) ->
  ShutdownContext X ls ctx w
  = Ret tt (mkWorld (globalTracerProvider w) (globalTextMapPropagator w)
                    (globalErrorHandler w) (log w)
                    (calls w ++ flat_map (shutdown_calls ctx) (shutdownFuncs ls))).
Proof.
  intros Hexp Hmet. unfold ShutdownContext.
  destruct (shutdown_all X (shutdownFuncs ls) ctx w) as [[] w'|msg w'] eqn:H.
  - now rewrite (shutdown_all_ret X _ ctx w w' H).
  - exfalso. clear -H Hexp Hmet. revert w H.
    induction (shutdownFuncs ls) as [|f fs IH]; intros w H; [discriminate H|].
    cbn [shutdown_all] in H. unfold bind in H.
    destruct f as [bsp e | p]; cbn [invoke] in H; unfold bind, call in H.
    + rewrite Hexp in H. now apply IH in H.
    + rewrite Hmet in H. now apply IH in H.
Qed.

Lemma ShutdownContext_returns_despite_processor_errors_witness :
  ShutdownContext lossy
    (mkLauncher env_defaults
       [TraceShutdown sample_bsp sample_exporter; MetricsShutdown 7])
    (CallerContext 3) fresh_world
  = Ret tt
      (mkWorld None None None []
         [Call_bsp_Shutdown sample_bsp (CallerContext 3);
          Call_spanExporter_Shutdown sample_exporter (CallerContext 3);
          Call_metrics_shutdown 7 (CallerContext 3)]).
Proof.
  apply (ShutdownContext_returns_despite_processor_errors lossy
           (mkLauncher env_defaults
              [TraceShutdown sample_bsp sample_exporter; MetricsShutdown 7])
           (CallerContext 3) fresh_world); reflexivity.
Defined.

(** ** Fatal paths of [ConfigureOpentelemetry] *)

(** X7. When the configuration that [newConfig] returns does not validate,
    [ConfigureOpentelemetry] ends the process with the validation error
    after the words configuration error, before the error handler is
    registered and before any pipeline factory is called. *)
Theorem ConfigureOpentelemetry_invalid_configuration
    (X : Collaborators) (opts : list Option) (w w1 : World) (c : Config.t) (err : error) :
  newConfig X opts w = Ret c w1 ->
  validateConfiguration c = Some err ->
  exists w2,
    ConfigureOpentelemetry X opts w = Exit ("configuration error: " ++ err)%string w2
    /\ calls w2 = calls w1
    /\ same_registrations w1 w2.
Proof.
  intros Hc Hv. unfold ConfigureOpentelemetry, bind at 1. rewrite Hc.
  destruct (default_Headers_fields c) as [_ [_ [_ [_ [_ Hv']]]]].
  unfold bind. rewrite Hv', Hv. unfold Fatal, Debug, ret.
  destruct (String.eqb (Config.LogLevel c) "debug");
    eexists; (split; [reflexivity|]); repeat split.
Qed.

Lemma ConfigureOpentelemetry_invalid_configuration_witness :
  exists w2,
    ConfigureOpentelemetry quiet [WithLogLevel "debug"] fresh_world
    = Exit "configuration error: invalid configuration: service name missing. Configure WithServiceName in code" w2
    /\ calls w2 = calls fresh_world
    /\ same_registrations fresh_world w2.
Proof.
  apply (ConfigureOpentelemetry_invalid_configuration quiet [WithLogLevel "debug"]
           fresh_world fresh_world
           (set_Resource
              (Some (resource_New
                       [KV "telemetry.sdk.name" "cfobservability";
                        KV "telemetry.sdk.language" "go";
                        KV "telemetry.sdk.version" "0.1.0";
                        KV "host.name" "build-host"]))
              (set_LogLevel "debug"
                 (set_errorHandler (Some defaultHandler)
                    (set_context Background
                       (set_BatchTimeout 5000000000 env_defaults)))))); reflexivity.
Defined.

(** X8. When the span exporter cannot be built, [ConfigureOpentelemetry]
    ends the process with a setup error that carries the exporter's error,
    and the metrics factory is never called: the one collaborator call
    after [newConfig] is the attempt to build the exporter. *)
Theorem ConfigureOpentelemetry_trace_failure_skips_metrics
    (X : Collaborators) (opts : list Option) (w w1 : World) (c : Config.t) (e : error) :
  let c' := default_Headers c in
  let spanExporter :=
    mkExporter (Config.SpanExporterEndpoint c') (Config.SpanExporterEndpointInsecure c')
               (Config.Headers c') in
  newConfig X opts w = Ret c w1 ->
  validateConfiguration c = None ->
  Config.SpanExporterEndpoint c <> "" ->
  otlptrace_New X (Config.context c) spanExporter (calls w1) = Some e ->
  exists w2,
    ConfigureOpentelemetry X opts w
    = Exit ("setup error: failed to create span exporter: " ++ e)%string w2
    /\ calls w2 = calls w1 ++ [Call_newTraceExporter (Config.context c) spanExporter]
    /\ globalTracerProvider w2 = globalTracerProvider w1
    /\ globalTextMapPropagator w2 = globalTextMapPropagator w1.
Proof.
  intros c' spanExporter Hc Hv Hspan Hexp.
  destruct (default_Headers_fields c) as [Hs [_ [Hctx _]]].
  fold c' in Hs, Hctx.
  rewrite (ConfigureOpentelemetry_run X opts w w1 c Hc Hv). fold c'.
  rewrite run_setups_cons. unfold setupTracing. rewrite Hs.
  destruct (String.eqb_spec (Config.SpanExporterEndpoint c) "") as [E|_];
    [contradiction|].
  unfold NewTracePipeline, newTraceExporter, bind, call, ret. cbn [fst snd].
  cbn [tracePipelineConfig PipelineConfig.Endpoint PipelineConfig.Insecure
       PipelineConfig.Headers].
  fold spanExporter. rewrite before_setups_calls, Hctx, Hexp. cbn [fst snd].
  unfold Fatal. eexists. split; [reflexivity|].
  cbn [calls add_log add_call globalTracerProvider globalTextMapPropagator].
  rewrite before_setups_calls. repeat split.
  - unfold before_setups.
    destruct (Config.errorHandler c), (String.eqb (Config.LogLevel c) "debug");
      reflexivity.
  - unfold before_setups.
    destruct (Config.errorHandler c), (String.eqb (Config.LogLevel c) "debug");
      reflexivity.
Qed.

Lemma ConfigureOpentelemetry_trace_failure_skips_metrics_witness :
  exists w2,
    ConfigureOpentelemetry unreachable [WithServiceName "billing"] fresh_world
    = Exit "setup error: failed to create span exporter: context deadline exceeded" w2
    /\ calls w2 = [Call_newTraceExporter Background sample_exporter]
    /\ globalTracerProvider w2 = None
    /\ globalTextMapPropagator w2 = None.
Proof.
  apply (ConfigureOpentelemetry_trace_failure_skips_metrics unreachable
           [WithServiceName "billing"] fresh_world fresh_world
           (set_Resource
              (Some (resource_New
                       [KV "telemetry.sdk.name" "cfobservability";
                        KV "telemetry.sdk.language" "go";
                        KV "telemetry.sdk.version" "0.1.0";
                        KV "service.name" "billing";
                        KV "host.name" "build-host"]))
              (set_ServiceName "billing"
                 (set_errorHandler (Some defaultHandler)
                    (set_context Background
                       (set_BatchTimeout 5000000000 env_defaults)))))
           "context deadline exceeded"); try reflexivity.
  simpl. discriminate.
Defined.

(** X9. With tracing disabled and metrics enabled, an error of the metrics
    factory ends the process with that error after the words setup error,
    whether or not the factory returned a shutdown function beside it: no
    launcher is returned. *)
Theorem ConfigureOpentelemetry_metrics_failure
    (X : Collaborators) (opts : list Option) (w w1 : World) (c : Config.t)
    (p : option MetricsPipeline) (err : error) :
  newConfig X opts w = Ret c w1 ->
  validateConfiguration c = None ->
  Config.SpanExporterEndpoint c = "" ->
  Config.MetricsEnabled c = true ->
  NewMetricsPipeline_result X (Config.context c)
    (metricsPipelineConfig (default_Headers c)) (calls w1) = (p, Some err) ->
  exists w2,
    ConfigureOpentelemetry X opts w = Exit ("setup error: " ++ err)%string w2
    /\ calls w2
       = calls w1 ++ [Call_NewMetricsPipeline (Config.context c)
                        (metricsPipelineConfig (default_Headers c))].
Proof.
  intros Hc Hv Hspan Hen Hfactory.
  destruct (default_Headers_fields c) as [Hs [Hm [Hctx _]]].
  rewrite (ConfigureOpentelemetry_run X opts w w1 c Hc Hv).
  rewrite run_setups_cons, setupTracing_disabled by now rewrite Hs.
  cbn [fst snd]. rewrite run_setups_cons.
  unfold setupMetrics. rewrite Hm, Hctx, Hen. cbn [negb].
  unfold NewMetricsPipeline, call. cbn [calls add_log].
  rewrite before_setups_calls, Hfactory. cbn [fst snd]. unfold Fatal.
  eexists. split; [reflexivity|]. cbn [calls add_call add_log].
  now rewrite before_setups_calls.
Qed.

Lemma ConfigureOpentelemetry_metrics_failure_witness :
  exists w2,
    ConfigureOpentelemetry
      (mkCollaborators "0.1.0" (env_defaults, None) (mkResource [])
         ("build-host", None) (fun _ _ _ => None)
         (fun _ _ _ => (Some 7, Some "metrics: invalid reporting period"))
         (fun _ _ _ => None) (fun _ _ _ => None) (fun _ _ _ => None))
      [WithServiceName "billing"; WithSpanExporterEndpoint ""] fresh_world
    = Exit "setup error: metrics: invalid reporting period" w2
    /\ List.length (calls w2) = 1.
Proof.
  destruct (ConfigureOpentelemetry_metrics_failure
              (mkCollaborators "0.1.0" (env_defaults, None) (mkResource [])
                 ("build-host", None) (fun _ _ _ => None)
                 (fun _ _ _ => (Some 7, Some "metrics: invalid reporting period"))
                 (fun _ _ _ => None) (fun _ _ _ => None) (fun _ _ _ => None))
              [WithServiceName "billing"; WithSpanExporterEndpoint ""]
              fresh_world fresh_world
              (set_Resource
                 (Some (resource_New
                          [KV "telemetry.sdk.name" "cfobservability";
                           KV "telemetry.sdk.language" "go";
                           KV "telemetry.sdk.version" "0.1.0";
                           KV "service.name" "billing";
                           KV "host.name" "build-host"]))
                 (set_SpanExporterEndpoint ""
                    (set_ServiceName "billing"
                       (set_errorHandler (Some defaultHandler)
                          (set_context Background
                             (set_BatchTimeout 5000000000 env_defaults))))))
              (Some 7) "metrics: invalid reporting period"
              eq_refl eq_refl eq_refl eq_refl eq_refl) as [w2 [Hrun Hcalls]].
  exists w2. split; [exact Hrun|]. rewrite Hcalls. reflexivity.
Defined.

(** ** Which value a key has in the built resource *)

Lemma has_key_app (k : string) (l1 l2 : list KeyValue) :
  has_key k (l1 ++ l2) = has_key k l1 || has_key k l2.
Proof. unfold has_key. apply existsb_app. Qed.

Lemma newResource_run (X : Collaborators) (c : Config.t) (w : World) :
  exists w',
    newResource X c w = Ret (resource_New (resource_attributes_spec X c)) w'
    /\ calls w' = calls w
    /\ same_registrations w w'.
Proof.
  unfold newResource, bind. rewrite newResource_attributes_run. unfold ret.
  eexists. split; [reflexivity|].
  destruct (hostname_given X c); [repeat split|].
  destruct (snd (os_Hostname X)); repeat split.
Qed.

Lemma detected_hostname_key (X : Collaborators) (c : Config.t) (k : string) :
  (k = "host.name" -> hostname_given X c = true) ->
  has_key k (detected_hostname X c) = false.
Proof.
  intro H. unfold detected_hostname.
  destruct (hostname_given X c) eqn:E; [reflexivity|].
  destruct (snd (os_Hostname X)); [reflexivity|].
  unfold has_key. cbn [existsb Key]. rewrite orb_false_r.
  destruct (String.eqb_spec "host.name" k) as [<-|_]; [|reflexivity].
  discriminate (H eq_refl).
Qed.

Lemma caller_attributes_key (c : Config.t) (k : string) :
  (forall v, In (k, v) (Config.resourceAttributes c) -> v = "") ->
  has_key k (caller_attributes c) = false.
Proof.
  intro H. apply has_key_false. intro Hin. unfold caller_attributes in Hin.
  rewrite map_map in Hin. cbn [Key] in Hin.
  apply in_map_iff in Hin. destruct Hin as [[k' v] [Hk Hin]]. cbn in Hk. subst k'.
  apply filter_In in Hin. destruct Hin as [Hin Hv]. cbn in Hv.
  rewrite (H v Hin) in Hv. discriminate Hv.
Qed.

(** X10. A non-empty [ServiceName] is the service name of the built
    resource, over whatever the environment says, unless the caller's
    resource attributes carry a non-empty service name of their own. *)
Theorem explicit_service_name_in_resource
    (X : Collaborators) (c : Config.t) (w : World) :
  Config.ServiceName c <> "" ->
  (forall v, In ("service.name", v) (Config.resourceAttributes c) -> v = "") ->
  exists r w',
    newResource X c w = Ret r w'
    /\ resource_get (Some r) "service.name" = Some (Config.ServiceName c).
Proof.
  intros Hname Hcaller.
  destruct (newResource_run X c w) as [w' [Hrun _]].
  exists (resource_New (resource_attributes_spec X c)), w'. split; [exact Hrun|].
  unfold resource_attributes_spec, identity_attributes.
  destruct (len0 (Config.ServiceName c)) eqn:E; [now apply len0_empty in E|].
  set (ver := if len0 (Config.ServiceVersion c) then [] else _).
  change (attrs (resource_Environment X)
          ++ ([KV "telemetry.sdk.name" "cfobservability";
               KV "telemetry.sdk.language" "go";
               KV "telemetry.sdk.version" (version X)]
              ++ [KV "service.name" (Config.ServiceName c)] ++ ver)
          ++ caller_attributes c ++ detected_hostname X c)
    with (attrs (resource_Environment X)
          ++ [KV "telemetry.sdk.name" "cfobservability";
              KV "telemetry.sdk.language" "go";
              KV "telemetry.sdk.version" (version X)]
          ++ KV "service.name" (Config.ServiceName c)
             :: (ver ++ caller_attributes c ++ detected_hostname X c)).
  rewrite app_assoc.
  apply resource_New_last_wins; [discriminate|].
  rewrite !has_key_app, (caller_attributes_key c _ Hcaller),
    detected_hostname_key by discriminate.
  unfold ver. destruct (len0 (Config.ServiceVersion c)); reflexivity.
Qed.

Lemma explicit_service_name_in_resource_witness :
  exists r w',
    newResource
      (mkCollaborators "0.1.0" (env_defaults, None)
         (mkResource [KV "service.name" "from-env"]) ("build-host", None)
         (fun _ _ _ => None) (fun _ _ _ => (Some 7, None))
         (fun _ _ _ => None) (fun _ _ _ => None) (fun _ _ _ => None))
      (set_resourceAttributes [("service.name", "")]
         (set_ServiceName "billing" env_defaults))
      fresh_world = Ret r w'
    /\ resource_get (Some r) "service.name" = Some "billing".
Proof.
  apply (explicit_service_name_in_resource
           (mkCollaborators "0.1.0" (env_defaults, None)
              (mkResource [KV "service.name" "from-env"]) ("build-host", None)
              (fun _ _ _ => None) (fun _ _ _ => (Some 7, None))
              (fun _ _ _ => None) (fun _ _ _ => None) (fun _ _ _ => None))
           (set_resourceAttributes [("service.name", "")]
              (set_ServiceName "billing" env_defaults))
           fresh_world).
  - simpl. discriminate.
  - simpl. intros v [H|[]]. now inversion H.
Defined.

(** X11. A resource attribute of the caller with a non-empty key and a
    non-empty value is the value of that key in the built resource: it
    wins over the environment, over the SDK attributes, over [ServiceName]
    and [ServiceVersion], and over the host-name detection. *)
Theorem caller_attribute_wins
    (X : Collaborators) (c : Config.t) (w : World) (k v : string) :
  map_wf (Config.resourceAttributes c) ->
  In (k, v) (Config.resourceAttributes c) ->
  k <> "" -> v <> "" ->
  exists r w',
    newResource X c w = Ret r w'
    /\ resource_get (Some r) k = Some v.
Proof.
  intros Hwf Hin Hk Hv.
  destruct (newResource_run X c w) as [w' [Hrun _]].
  exists (resource_New (resource_attributes_spec X c)), w'. split; [exact Hrun|].
  destruct (in_split _ _ Hin) as [m1 [m2 Hm]].
  unfold map_wf in Hwf. rewrite Hm, map_app in Hwf. cbn [map fst] in Hwf.
  pose proof (NoDup_remove_2 _ _ _ Hwf) as Hnotin.
  assert (H2 : ~ In k (map fst m2)) by (intro; apply Hnotin, in_or_app; tauto).
  unfold resource_attributes_spec.
  rewrite (caller_attributes_split c m1 m2 k v Hm Hv), <- !app_assoc.
  cbn [app]. rewrite !app_assoc.
  apply resource_New_last_wins; [exact Hk|].
  rewrite has_key_app. apply orb_false_iff. split.
  - apply has_key_false. now apply caller_attributes_without.
  - apply detected_hostname_key. intros ->.
    now apply (hostname_given_by_caller X c v).
Qed.

Lemma caller_attribute_wins_witness :
  exists r w',
    newResource quiet
      (set_resourceAttributes [("service.name", "ledger"); ("team", "core")]
         (set_ServiceName "billing" env_defaults))
      fresh_world = Ret r w'
    /\ resource_get (Some r) "service.name" = Some "ledger".
Proof.
  apply (caller_attribute_wins quiet
           (set_resourceAttributes [("service.name", "ledger"); ("team", "core")]
              (set_ServiceName "billing" env_defaults))
           fresh_world "service.name" "ledger").
  - unfold map_wf. simpl. repeat constructor; simpl; intuition discriminate.
  - simpl. auto.
  - discriminate.
  - discriminate.
Defined.

(** X12. When no host name is given, by the environment or by the caller,
    the answer of [os.Hostname] decides: on success the detected name is
    the host name of the built resource; on failure the resource is still
    built, from the slice without a detected host name, and the one effect
    is the debug entry with the hint. *)
Theorem hostname_detection
    (X : Collaborators) (c : Config.t) (w : World) :
  hostname_given X c = false ->
  (forall h, os_Hostname X = (h, None) ->
     exists r w',
       newResource X c w = Ret r w'
       /\ resource_get (Some r) "host.name" = Some h)
  /\ (forall h err, os_Hostname X = (h, Some err) ->
        newResource X c w
        = Ret (resource_New (attrs (resource_Environment X)
                             ++ identity_attributes X c ++ caller_attributes c))
              (add_log DebugLevel (hostname_hint err) w)).
Proof.
  intro Hgiven. split.
  - intros h Hos.
    destruct (newResource_run X c w) as [w' [Hrun _]].
    exists (resource_New (resource_attributes_spec X c)), w'. split; [exact Hrun|].
    unfold resource_attributes_spec, detected_hostname.
    rewrite Hgiven, Hos. cbn [fst snd]. rewrite !app_assoc.
    now apply resource_New_last_wins.
  - intros h err Hos. unfold newResource, bind.
    rewrite newResource_attributes_run. unfold resource_attributes_spec,
      detected_hostname. rewrite Hgiven, Hos. cbn [fst snd].
    now rewrite app_nil_r.
Qed.

Lemma hostname_detection_witness :
  exists r w',
    newResource quiet (set_ServiceName "billing" env_defaults) fresh_world = Ret r w'
    /\ resource_get (Some r) "host.name" = Some "build-host".
Proof.
  apply (hostname_detection quiet (set_ServiceName "billing" env_defaults)
           fresh_world); reflexivity.
Defined.

(** ** [newConfig] and the options *)

Lemma newConfig_run (X : Collaborators) (opts : list Option) (w : World) :
  exists w',
    calls w' = calls w
    /\ same_registrations w w'
    /\ newConfig X opts w
       = match snd (envconfig_Process X) with
         | Some e => Exit e (add_log FatalLevel e w')
         | None =>
             Ret (set_Resource
                    (Some (resource_New (resource_attributes_spec X (configured X opts))))
                    (configured X opts)) w'
         end.
Proof.
  change (newConfig X opts w)
    with (bind (newResource X (configured X opts))
            (fun r => match snd (envconfig_Process X) with
                      | Some e => Fatal e
                      | None => ret (set_Resource (Some r) (configured X opts))
                      end) w).
  unfold bind.
  destruct (newResource_run X (configured X opts) w) as [w' [Hrun [Hcalls Hreg]]].
  exists w'. rewrite Hrun. split; [exact Hcalls|]. split; [exact Hreg|].
  destruct (snd (envconfig_Process X)); reflexivity.
Qed.

(** X13. When the environment does not decode, [newConfig] ends the
    process with the decoding error, whatever the options are; it has
    called no collaborator and registered nothing. *)
Theorem newConfig_environment_error_is_fatal
    (X : Collaborators) (opts : list Option) (w : World) (e : error) :
  snd (envconfig_Process X) = Some e ->
  exists w',
    newConfig X opts w = Exit e w'
    /\ calls w' = calls w
    /\ same_registrations w w'.
Proof.
  intro He. destruct (newConfig_run X opts w) as [w' [Hcalls [Hreg Hrun]]].
  rewrite He in Hrun. eexists. split; [exact Hrun|].
  split; [exact Hcalls | exact Hreg].
Qed.

Lemma newConfig_environment_error_is_fatal_witness :
  exists w',
    newConfig undecodable [WithServiceName "billing"] fresh_world
    = Exit "OTEL_METRICS_ENABLED: invalid syntax" w'
    /\ calls w' = calls fresh_world
    /\ same_registrations fresh_world w'.
Proof.
  apply (newConfig_environment_error_is_fatal undecodable
           [WithServiceName "billing"] fresh_world). reflexivity.
Defined.

(** X14. When the environment decodes, [newConfig] returns; the resource of
    the configuration it returns is set, whatever the options did to that
    field, and its keys are distinct; no collaborator has been called and
    nothing is registered. *)
Theorem newConfig_returns_with_resource
    (X : Collaborators) (opts : list Option) (w : World) :
  snd (envconfig_Process X) = None ->
  exists c r w',
    newConfig X opts w = Ret c w'
    /\ Config.Resource c = Some r
    /\ resource_wf (Config.Resource c)
    /\ calls w' = calls w
    /\ same_registrations w w'.
Proof.
  intro He. destruct (newConfig_run X opts w) as [w' [Hcalls [Hreg Hrun]]].
  rewrite He in Hrun. do 3 eexists. split; [exact Hrun|].
  cbn [set_Resource Config.Resource]. split; [reflexivity|].
  split; [apply resource_New_wf|]. split; [exact Hcalls | exact Hreg].
Qed.

Lemma newConfig_returns_with_resource_witness :
  exists c r w',
    newConfig quiet [set_Resource None; WithServiceName "billing"] fresh_world
    = Ret c w'
    /\ Config.Resource c = Some r
    /\ resource_wf (Config.Resource c)
    /\ calls w' = calls fresh_world
    /\ same_registrations fresh_world w'.
Proof.
  apply (newConfig_returns_with_resource quiet
           [set_Resource None; WithServiceName "billing"] fresh_world).
  reflexivity.
Defined.

Lemma newConfig_config (X : Collaborators) (opts : list Option)
    (w w1 : World) (c : Config.t) :
  newConfig X opts w = Ret c w1 ->
  c = set_Resource
        (Some (resource_New (resource_attributes_spec X (configured X opts))))
        (configured X opts).
Proof.
  intro H. destruct (newConfig_run X opts w) as [w' [_ [_ Hrun]]].
  rewrite Hrun in H. destruct (snd (envconfig_Process X)); [discriminate H|].
  now inversion H.
Qed.

Lemma configured_snoc (X : Collaborators) (opts : list Option) (o : Option) :
  configured X (opts ++ [o]) = o (configured X opts).
Proof.
  unfold configured. now rewrite fold_left_app.
Qed.

(** X15. The options are applied in their order, after the environment and
    the defaults: the configuration that [newConfig] returns is, but for its
    resource, the decoded environment with the three defaults set and then
    every option applied in turn, first to last.  So the option that comes
    last decides its field, and what an earlier option set stays unless a
    later option sets it again. *)
Theorem newConfig_last_option_wins (X : Collaborators) :
  (forall opts w w1 c,
     newConfig X opts w = Ret c w1 ->
     c = set_Resource (Config.Resource c)
           (fold_left (fun c opt => opt c) opts
              (set_errorHandler (Some defaultHandler)
                 (set_context Background
                    (set_BatchTimeout 5000000000 (fst (envconfig_Process X)))))))
  /\ (forall opts o w w1 c,
        newConfig X (opts ++ [o]) w = Ret c w1 ->
        (forall name, o = WithServiceName name -> Config.ServiceName c = name)
        /\ (forall v, o = WithServiceVersion v -> Config.ServiceVersion c = v)
        /\ (forall url, o = WithSpanExporterEndpoint url ->
                        Config.SpanExporterEndpoint c = url)
        /\ (forall url, o = WithMetricExporterEndpoint url ->
                        Config.MetricExporterEndpoint c = url)
        /\ (forall b, o = WithMetricsEnabled b -> Config.MetricsEnabled c = b)
        /\ (forall t, o = WithBatchTimeout t -> Config.BatchTimeout c = t)
        /\ (forall ps, o = WithPropagators ps -> Config.Propagators c = ps)
        /\ (forall m, o = WithResourceAttributes m -> Config.resourceAttributes c = m)
        /\ (forall h, o = WithErrorHandler h -> Config.errorHandler c = h)
        /\ (forall ctx, o = WithContext ctx -> Config.context c = ctx))
  /\ (forall opts name level w w1 c,
        newConfig X (opts ++ [WithServiceName name; WithLogLevel level]) w = Ret c w1 ->
        Config.ServiceName c = name /\ Config.LogLevel c = level).
Proof.
  split; [|split].
  - intros opts w w1 c H. apply newConfig_config in H.
    rewrite H at 2. rewrite H at 1. reflexivity.
  - intros opts o w w1 c H. apply newConfig_config in H.
    rewrite configured_snoc in H.
    repeat split; intros v ->; rewrite H; reflexivity.
  - intros opts name level w w1 c H. apply newConfig_config in H.
    change (opts ++ [WithServiceName name; WithLogLevel level])
      with (opts ++ [WithServiceName name] ++ [WithLogLevel level]) in H.
    rewrite app_assoc, !configured_snoc in H. rewrite H. split; reflexivity.
Qed.

Lemma newConfig_last_option_wins_witness :
  Config.ServiceName
    (set_Resource
       (Some (resource_New
                [KV "telemetry.sdk.name" "cfobservability";
                 KV "telemetry.sdk.language" "go";
                 KV "telemetry.sdk.version" "0.1.0";
                 KV "service.name" "billing";
                 KV "host.name" "build-host"]))
       (set_LogLevel "debug"
          (set_ServiceName "billing"
             (set_errorHandler (Some defaultHandler)
                (set_context Background
                   (set_BatchTimeout 5000000000 env_defaults))))))
  = "billing"
  /\ Config.LogLevel
       (set_Resource
          (Some (resource_New
                   [KV "telemetry.sdk.name" "cfobservability";
                    KV "telemetry.sdk.language" "go";
                    KV "telemetry.sdk.version" "0.1.0";
                    KV "service.name" "billing";
                    KV "host.name" "build-host"]))
          (set_LogLevel "debug"
             (set_ServiceName "billing"
                (set_errorHandler (Some defaultHandler)
                   (set_context Background
                      (set_BatchTimeout 5000000000 env_defaults))))))
     = "debug".
Proof.
  destruct (newConfig_last_option_wins quiet) as [_ [_ Hkeep]].
  apply (Hkeep [] "billing" "debug" fresh_world fresh_world).
  reflexivity.
Defined.

(** X16. A service name that the caller gives as a resource attribute only
    makes the configuration of [newConfig] valid, with [ServiceName] left
    empty. *)
Theorem service_name_by_resource_attribute
    (X : Collaborators) (opts : list Option) (w w1 : World) (c : Config.t) (v : string) :
  newConfig X opts w = Ret c w1 ->
  map_wf (Config.resourceAttributes c) ->
  In ("service.name", v) (Config.resourceAttributes c) ->
  v <> "" ->
  validateConfiguration c = None
  /\ resource_get (Config.Resource c) "service.name" = Some v.
Proof.
  intros Hc Hwf Hin Hv. apply newConfig_config in Hc.
  set (c0 := configured X opts) in *.
  assert (Hattrs : Config.resourceAttributes c = Config.resourceAttributes c0)
    by (rewrite Hc; reflexivity).
  rewrite Hattrs in Hwf, Hin.
  destruct (caller_attribute_wins X c0 w "service.name" v Hwf Hin) as [r [w' [Hrun Hget]]];
    [discriminate | exact Hv |].
  destruct (newResource_run X c0 w) as [w'' [Hrun' _]].
  rewrite Hrun' in Hrun. inversion Hrun; subst r.
  assert (Hres : Config.Resource c
                 = Some (resource_New (resource_attributes_spec X c0)))
    by (rewrite Hc; reflexivity).
  rewrite Hres. split; [|exact Hget].
  unfold validateConfiguration. destruct (len0 (Config.ServiceName c)); [|reflexivity].
  rewrite Hres.
  unfold resource_get in Hget.
  destruct (find _ _) as [kv|] eqn:Hfind; [|discriminate Hget].
  apply find_some in Hfind. destruct Hfind as [Hin' Hkey].
  apply String.eqb_eq in Hkey. destruct kv as [k' v']. cbn in Hkey, Hget.
  inversion Hget; subst.
  rewrite (find_service_name _ (resource_New_wf _) v Hin').
  destruct (len0 v) eqn:E; [now apply len0_empty in E | reflexivity].
Qed.

Lemma service_name_by_resource_attribute_witness :
  validateConfiguration
    (set_Resource
       (Some (resource_New
                [KV "telemetry.sdk.name" "cfobservability";
                 KV "telemetry.sdk.language" "go";
                 KV "telemetry.sdk.version" "0.1.0";
                 KV "service.name" "ledger";
                 KV "host.name" "build-host"]))
       (set_resourceAttributes [("service.name", "ledger")]
          (set_errorHandler (Some defaultHandler)
             (set_context Background
                (set_BatchTimeout 5000000000 env_defaults)))))
  = None.
Proof.
  apply (service_name_by_resource_attribute quiet
           [WithResourceAttributes [("service.name", "ledger")]]
           fresh_world fresh_world
           (set_Resource
              (Some (resource_New
                       [KV "telemetry.sdk.name" "cfobservability";
                        KV "telemetry.sdk.language" "go";
                        KV "telemetry.sdk.version" "0.1.0";
                        KV "service.name" "ledger";
                        KV "host.name" "build-host"]))
              (set_resourceAttributes [("service.name", "ledger")]
                 (set_errorHandler (Some defaultHandler)
                    (set_context Background
                       (set_BatchTimeout 5000000000 env_defaults)))))
           "ledger").
  - reflexivity.
  - unfold map_wf. simpl. repeat constructor. simpl. tauto.
  - simpl. auto.
  - discriminate.
Defined.

(** ** Headers *)

Lemma lookup_map_set (k v k' : string) (m : GoMap) :
  lookup (map_set k v m) k' = if String.eqb k k' then Some v else lookup m k'.
Proof.
  induction m as [|[k0 v0] m IH]; cbn [map_set lookup]; [reflexivity|].
  destruct (String.eqb_spec k0 k) as [->|Hne]; cbn [lookup].
  - destruct (String.eqb k k'); reflexivity.
  - rewrite IH. destruct (String.eqb_spec k0 k') as [->|_]; [|reflexivity].
    destruct (String.eqb_spec k k') as [->|_]; [congruence | reflexivity].
Qed.

Lemma map_set_keys (k v k' : string) (m : GoMap) :
  In k' (map fst (map_set k v m)) <-> k' = k \/ In k' (map fst m).
Proof.
  induction m as [|[k0 v0] m IH]; cbn [map_set map fst In].
  - intuition congruence.
  - destruct (String.eqb_spec k0 k) as [->|Hne]; cbn [map fst In].
    + intuition congruence.
    + rewrite IH. intuition congruence.
Qed.

Lemma map_set_wf (k v : string) (m : GoMap) :
  map_wf m -> map_wf (map_set k v m).
Proof.
  unfold map_wf. induction m as [|[k0 v0] m IH]; cbn [map_set map fst]; intro H.
  - repeat constructor. intros [].
  - inversion H as [|? ? Hnotin Hnd]; subst.
    destruct (String.eqb_spec k0 k) as [->|Hne]; cbn [map fst].
    + now constructor.
    + constructor; [|now apply IH].
      rewrite map_set_keys. intuition congruence.
Qed.

Lemma lookup_absent {V} (m : list (string * V)) (k : string) :
  ~ In k (map fst m) -> lookup m k = None.
Proof.
  induction m as [|[k0 v0] m IH]; cbn [lookup map fst In]; intro H; [reflexivity|].
  destruct (String.eqb_spec k0 k); [tauto|]. apply IH. tauto.
Qed.

Lemma set_all_lookup (headers m : GoMap) (k : string) :
  map_wf headers ->
  lookup (fold_left (fun m kv => map_set (fst kv) (snd kv) m) headers m) k
  = match lookup headers k with
    | Some v => Some v
    | None => lookup m k
    end.
Proof.
  unfold map_wf. revert m.
  induction headers as [|[k0 v0] headers IH]; intros m H; cbn [fold_left lookup fst snd];
    [reflexivity|].
  cbn [map fst] in H. inversion H as [|? ? Hnotin Hnd]; subst.
  rewrite (IH _ Hnd), lookup_map_set.
  destruct (String.eqb_spec k0 k) as [->|_]; [|reflexivity].
  now rewrite (lookup_absent headers k Hnotin).
Qed.

Lemma set_all_wf (headers m : GoMap) :
  map_wf m ->
  map_wf (fold_left (fun m kv => map_set (fst kv) (snd kv) m) headers m).
Proof.
  revert m. induction headers as [|kv headers IH]; intros m H; cbn [fold_left];
    [exact H|].
  apply IH, map_set_wf, H.
Qed.

(** X17. [WithHeaders] merges: afterwards the header map is not nil, a key
    of the given headers has the given value, every other key has the value
    it had before, and the keys are still distinct. *)
Theorem WithHeaders_merges (headers : GoMap) (c : Config.t) :
  map_wf headers ->
  exists m,
    Config.Headers (WithHeaders headers c) = Some m
    /\ (forall k,
          lookup m k = match lookup headers k with
                       | Some v => Some v
                       | None => lookup (headers_of c) k
                       end)
    /\ (map_wf (headers_of c) -> map_wf m).
Proof.
  intro Hwf. unfold WithHeaders. cbn [set_Headers Config.Headers].
  eexists. split; [reflexivity|]. split.
  - intro k. now apply set_all_lookup.
  - apply set_all_wf.
Qed.

Lemma WithHeaders_merges_witness :
  exists m,
    Config.Headers
      (WithHeaders [("x-api-key", "new"); ("x-team", "core")]
         (set_Headers (Some [("x-tenant", "t1"); ("x-api-key", "old")]) env_defaults))
    = Some m
    /\ (forall k,
          lookup m k = match lookup [("x-api-key", "new"); ("x-team", "core")] k with
                       | Some v => Some v
                       | None =>
                           lookup
                             (headers_of
                                (set_Headers
                                   (Some [("x-tenant", "t1"); ("x-api-key", "old")])
                                   env_defaults)) k
                       end)
    /\ (map_wf
          (headers_of
             (set_Headers (Some [("x-tenant", "t1"); ("x-api-key", "old")]) env_defaults)) ->
        map_wf m).
Proof.
  apply (WithHeaders_merges [("x-api-key", "new"); ("x-team", "core")]
           (set_Headers (Some [("x-tenant", "t1"); ("x-api-key", "old")]) env_defaults)).
  unfold map_wf. simpl. repeat constructor; simpl; intuition discriminate.
Defined.

(** ** A launch with tracing alone *)

Lemma before_setups_registrations (c : Config.t) (w : World) :
  globalTracerProvider (before_setups c w) = globalTracerProvider w
  /\ globalTextMapPropagator (before_setups c w) = globalTextMapPropagator w
  /\ globalErrorHandler (before_setups c w)
     = match Config.errorHandler c with
       | Some h => Some h
       | None => globalErrorHandler w
       end.
Proof.
  unfold before_setups.
  destruct (Config.errorHandler c), (String.eqb (Config.LogLevel c) "debug");
    repeat split.
Qed.

Lemma trace_only_launch
    (X : Collaborators) (opts : list Option) (w w1 : World) (c : Config.t) :
  let c' := default_Headers c in
  let spanExporter :=
    mkExporter (Config.SpanExporterEndpoint c') (Config.SpanExporterEndpointInsecure c')
               (Config.Headers c') in
  let bsp := mkBSP spanExporter (Config.BatchTimeout c') in
  newConfig X opts w = Ret c w1 ->
  validateConfiguration c = None ->
  Config.SpanExporterEndpoint c <> "" ->
  Config.MetricsEnabled c = false ->
  otlptrace_New X (Config.context c) spanExporter (calls w1) = None ->
  supported_propagators (Config.Propagators c) <> [] ->
  exists w2,
    ConfigureOpentelemetry X opts w
    = Ret (mkLauncher c' [TraceShutdown bsp spanExporter]) w2
    /\ calls w2 = calls w1 ++ [Call_newTraceExporter (Config.context c) spanExporter]
    /\ globalTracerProvider w2 = Some (mkTP bsp (Config.Resource c))
    /\ globalTextMapPropagator w2 = Some (supported_propagators (Config.Propagators c))
    /\ globalErrorHandler w2
       = match Config.errorHandler c with
         | Some h => Some h
         | None => globalErrorHandler w1
         end.
Proof.
  intros c' spanExporter bsp Hc Hv Hspan Hoff Hexp Hprops.
  destruct (default_Headers_fields c) as [Hs [Hm [Hctx [_ [Hp _]]]]].
  fold c' in Hs, Hm, Hctx, Hp.
  assert (Hres : Config.Resource c' = Config.Resource c)
    by (unfold c', default_Headers; destruct (Config.Headers c); reflexivity).
  rewrite (ConfigureOpentelemetry_run X opts w w1 c Hc Hv). fold c'.
  rewrite run_setups_cons. unfold setupTracing. rewrite Hs.
  destruct (String.eqb_spec (Config.SpanExporterEndpoint c) "") as [E|_];
    [contradiction|].
  destruct (NewTracePipeline_outcome X (Config.context c') (tracePipelineConfig c')
              (before_setups c w1))
    as [r [wt [Ht [Hcalls [_ [Hh Hcases]]]]]].
  cbn [tracePipelineConfig PipelineConfig.Endpoint PipelineConfig.Insecure
       PipelineConfig.Headers PipelineConfig.BatchTimeout PipelineConfig.Resource
       PipelineConfig.Propagators] in Hcalls, Hcases.
  fold spanExporter in Hcalls, Hcases. fold bsp in Hcases.
  rewrite before_setups_calls, Hctx in Hcalls.
  rewrite before_setups_calls, Hctx, Hp, Hres in Hcases.
  destruct Hcases as [[e [He _]] | [[_ [Hnone _]] | [_ [_ [Hr [Htp Hprop]]]]]];
    [congruence | congruence |].
  rewrite Ht, Hr. cbn [fst snd]. rewrite run_setups_cons.
  unfold setupMetrics. rewrite Hm, Hoff. cbn [negb].
  unfold bind, Debug, ret. cbn [fst snd run_setups config shutdownFuncs app].
  eexists. split; [reflexivity|].
  cbn [calls add_log globalTracerProvider globalTextMapPropagator globalErrorHandler].
  destruct (before_setups_registrations c w1) as [_ [_ Hbh]].
  rewrite Hh, Hbh. auto.
Qed.

(** X18. A launch with tracing alone (a span endpoint, metrics disabled, an
    exporter that can be built, a supported propagator) returns a launcher
    that holds the shutdown function of the trace pipeline and no other;
    the tracer provider over the resource of the configuration and the
    composite propagator are registered, and the error handler of the
    configuration is registered unless it is nil. *)
Theorem ConfigureOpentelemetry_tracing_alone
    (X : Collaborators) (opts : list Option) (w w1 : World) (c : Config.t) :
  let c' := default_Headers c in
  let spanExporter :=
    mkExporter (Config.SpanExporterEndpoint c') (Config.SpanExporterEndpointInsecure c')
               (Config.Headers c') in
  let bsp := mkBSP spanExporter (Config.BatchTimeout c') in
  newConfig X opts w = Ret c w1 ->
  validateConfiguration c = None ->
  Config.SpanExporterEndpoint c <> "" ->
  Config.MetricsEnabled c = false ->
  otlptrace_New X (Config.context c) spanExporter (calls w1) = None ->
  supported_propagators (Config.Propagators c) <> [] ->
  exists w2,
    ConfigureOpentelemetry X opts w
    = Ret (mkLauncher c' [TraceShutdown bsp spanExporter]) w2
    /\ globalTracerProvider w2 = Some (mkTP bsp (Config.Resource c))
    /\ globalTextMapPropagator w2 = Some (supported_propagators (Config.Propagators c))
    /\ globalErrorHandler w2
       = match Config.errorHandler c with
         | Some h => Some h
         | None => globalErrorHandler w1
         end.
Proof.
  intros c' spanExporter bsp Hc Hv Hspan Hoff Hexp Hprops.
  destruct (trace_only_launch X opts w w1 c Hc Hv Hspan Hoff Hexp Hprops)
    as [w2 [Hrun [_ [Htp [Hprop Hh]]]]].
  exists w2. auto.
Qed.

Lemma ConfigureOpentelemetry_tracing_alone_witness :
  exists w2,
    ConfigureOpentelemetry traces_only [WithServiceName "billing"] fresh_world
    = Ret (mkLauncher
             (default_Headers
                (set_Resource
                   (Some (resource_New
                            [KV "telemetry.sdk.name" "cfobservability";
                             KV "telemetry.sdk.language" "go";
                             KV "telemetry.sdk.version" "0.1.0";
                             KV "service.name" "billing";
                             KV "host.name" "build-host"]))
                   (set_ServiceName "billing"
                      (set_errorHandler (Some defaultHandler)
                         (set_context Background
                            (set_BatchTimeout 5000000000 env_traces_only))))))
             [TraceShutdown sample_bsp sample_exporter]) w2
    /\ globalTextMapPropagator w2 = Some [TraceContext; Baggage]
    /\ globalErrorHandler w2 = Some defaultHandler.
Proof.
  destruct (ConfigureOpentelemetry_tracing_alone traces_only
              [WithServiceName "billing"] fresh_world fresh_world
              (set_Resource
                 (Some (resource_New
                          [KV "telemetry.sdk.name" "cfobservability";
                           KV "telemetry.sdk.language" "go";
                           KV "telemetry.sdk.version" "0.1.0";
                           KV "service.name" "billing";
                           KV "host.name" "build-host"]))
                 (set_ServiceName "billing"
                    (set_errorHandler (Some defaultHandler)
                       (set_context Background
                          (set_BatchTimeout 5000000000 env_traces_only)))))
              eq_refl eq_refl)
    as [w2 [Hrun [_ [Hprop Hh]]]]; try reflexivity; try (simpl; discriminate).
  exists w2. split; [exact Hrun|]. split; [exact Hprop | exact Hh].
Defined.

(** X19. After such a launch, a shutdown in which the exporter closes
    without error closes what the launch built: the calls of launch and
    shutdown together are the construction of the exporter, the shutdown of
    the processor over that exporter, and the shutdown of that exporter. *)
Theorem launch_then_shutdown_closes_what_was_built
    (X : Collaborators) (opts : list Option) (w w1 : World) (c : Config.t) :
  let c' := default_Headers c in
  let spanExporter :=
    mkExporter (Config.SpanExporterEndpoint c') (Config.SpanExporterEndpointInsecure c')
               (Config.Headers c') in
  let bsp := mkBSP spanExporter (Config.BatchTimeout c') in
  newConfig X opts w = Ret c w1 ->
  validateConfiguration c = None ->
  Config.SpanExporterEndpoint c <> "" ->
  Config.MetricsEnabled c = false ->
  otlptrace_New X (Config.context c) spanExporter (calls w1) = None ->
  supported_propagators (Config.Propagators c) <> [] ->
  (forall h, spanExporter_Shutdown X spanExporter Background h = None) ->
  exists ls w2 w3,
    ConfigureOpentelemetry X opts w = Ret ls w2
    /\ Shutdown X ls w2 = Ret tt w3
    /\ calls w3
       = calls w1 ++ [Call_newTraceExporter (Config.context c) spanExporter;
                      Call_bsp_Shutdown bsp Background;
                      Call_spanExporter_Shutdown spanExporter Background]
    /\ globalTracerProvider w3 = globalTracerProvider w2.
Proof.
  intros c' spanExporter bsp Hc Hv Hspan Hoff Hexp Hprops Hclose.
  destruct (trace_only_launch X opts w w1 c Hc Hv Hspan Hoff Hexp Hprops)
    as [w2 [Hrun [Hcalls _]]].
  fold c' spanExporter bsp in Hrun. fold c' spanExporter in Hcalls.
  do 3 eexists. split; [exact Hrun|].
  unfold Shutdown, ShutdownContext. cbn [shutdownFuncs shutdown_all invoke].
  unfold bind, call, ret. rewrite Hclose.
  split; [reflexivity|]. cbn [calls add_call globalTracerProvider].
  rewrite Hcalls, <- !app_assoc. split; reflexivity.
Qed.

Lemma launch_then_shutdown_closes_what_was_built_witness :
  exists ls w2 w3,
    ConfigureOpentelemetry traces_only [WithServiceName "billing"] fresh_world
    = Ret ls w2
    /\ Shutdown traces_only ls w2 = Ret tt w3
    /\ calls w3
       = calls fresh_world
         ++ [Call_newTraceExporter Background sample_exporter;
             Call_bsp_Shutdown sample_bsp Background;
             Call_spanExporter_Shutdown sample_exporter Background]
    /\ globalTracerProvider w3 = globalTracerProvider w2.
Proof.
  apply (launch_then_shutdown_closes_what_was_built traces_only
           [WithServiceName "billing"] fresh_world fresh_world
           (set_Resource
              (Some (resource_New
                       [KV "telemetry.sdk.name" "cfobservability";
                        KV "telemetry.sdk.language" "go";
                        KV "telemetry.sdk.version" "0.1.0";
                        KV "service.name" "billing";
                        KV "host.name" "build-host"]))
              (set_ServiceName "billing"
                 (set_errorHandler (Some defaultHandler)
                    (set_context Background
                       (set_BatchTimeout 5000000000 env_traces_only))))));
    try reflexivity; simpl; discriminate.
Defined.

(** X20. With a span endpoint and an exporter that can be built, a list of
    propagators without a supported key ends the launch: the process ends
    with the error of [configurePropagators] after the words setup error,
    no tracer provider is registered, the metrics factory is not called,
    and the exporter that was built is not shut down. *)
Theorem ConfigureOpentelemetry_unsupported_propagators
    (X : Collaborators) (opts : list Option) (w w1 : World) (c : Config.t) :
  let c' := default_Headers c in
  let spanExporter :=
    mkExporter (Config.SpanExporterEndpoint c') (Config.SpanExporterEndpointInsecure c')
               (Config.Headers c') in
  newConfig X opts w = Ret c w1 ->
  validateConfiguration c = None ->
  Config.SpanExporterEndpoint c <> "" ->
  otlptrace_New X (Config.context c) spanExporter (calls w1) = None ->
  supported_propagators (Config.Propagators c) = [] ->
  exists w2,
    ConfigureOpentelemetry X opts w
    = Exit ("setup error: " ++ unsupported_propagators)%string w2
    /\ calls w2 = calls w1 ++ [Call_newTraceExporter (Config.context c) spanExporter]
    /\ globalTracerProvider w2 = globalTracerProvider w1
    /\ globalTextMapPropagator w2 = globalTextMapPropagator w1.
Proof.
  intros c' spanExporter Hc Hv Hspan Hexp Hprops.
  destruct (default_Headers_fields c) as [Hs [_ [Hctx [_ [Hp _]]]]].
  fold c' in Hs, Hctx, Hp.
  rewrite (ConfigureOpentelemetry_run X opts w w1 c Hc Hv). fold c'.
  rewrite run_setups_cons. unfold setupTracing. rewrite Hs.
  destruct (String.eqb_spec (Config.SpanExporterEndpoint c) "") as [E|_];
    [contradiction|].
  destruct (NewTracePipeline_outcome X (Config.context c') (tracePipelineConfig c')
              (before_setups c w1))
    as [r [wt [Ht [Hcalls [_ [_ Hcases]]]]]].
  cbn [tracePipelineConfig PipelineConfig.Endpoint PipelineConfig.Insecure
       PipelineConfig.Headers PipelineConfig.BatchTimeout PipelineConfig.Resource
       PipelineConfig.Propagators] in Hcalls, Hcases.
  fold spanExporter in Hcalls, Hcases.
  rewrite before_setups_calls, Hctx in Hcalls.
  rewrite before_setups_calls, Hctx, Hp in Hcases.
  destruct (before_setups_registrations c w1) as [Hbt [Hbp _]].
  destruct Hcases as [[e [He _]] | [[_ [_ [Hr [Htp [Hprop _]]]]] | [_ [Hsome _]]]];
    [congruence | | congruence].
  rewrite Ht, Hr. cbn [fst snd]. unfold Fatal.
  eexists. split; [reflexivity|].
  cbn [calls add_log globalTracerProvider globalTextMapPropagator].
  rewrite Hcalls, Htp, Hprop, Hbt, Hbp. auto.
Qed.

Lemma ConfigureOpentelemetry_unsupported_propagators_witness :
  exists w2,
    ConfigureOpentelemetry jaeger_only [WithServiceName "billing"] fresh_world
    = Exit "setup error: invalid configuration: unsupported propagators. Supported options: b3,baggage,tracecontext,ottrace" w2
    /\ calls w2 = calls fresh_world ++ [Call_newTraceExporter Background sample_exporter]
    /\ globalTracerProvider w2 = globalTracerProvider fresh_world
    /\ globalTextMapPropagator w2 = globalTextMapPropagator fresh_world.
Proof.
  apply (ConfigureOpentelemetry_unsupported_propagators jaeger_only
           [WithServiceName "billing"] fresh_world fresh_world
           (set_Resource
              (Some (resource_New
                       [KV "telemetry.sdk.name" "cfobservability";
                        KV "telemetry.sdk.language" "go";
                        KV "telemetry.sdk.version" "0.1.0";
                        KV "service.name" "billing";
                        KV "host.name" "build-host"]))
              (set_ServiceName "billing"
                 (set_errorHandler (Some defaultHandler)
                    (set_context Background
                       (set_BatchTimeout 5000000000 env_jaeger))))));
    try reflexivity. simpl. discriminate.
Defined.

(** ** Further precedence in the resource *)

Lemma identity_tail_key (c : Config.t) (k : string) :
  k <> "service.name" -> k <> "service.version" ->
  has_key k
    ((if len0 (Config.ServiceName c) then []
      else [KV "service.name" (Config.ServiceName c)])
     ++ (if len0 (Config.ServiceVersion c) then []
         else [KV "service.version" (Config.ServiceVersion c)])) = false.
Proof.
  intros H1 H2. apply has_key_false.
  destruct (len0 (Config.ServiceName c)), (len0 (Config.ServiceVersion c));
    cbn [app map Key In]; intuition congruence.
Qed.

Lemma has_key_cons (k : string) (kv : KeyValue) (l : list KeyValue) :
  has_key k (kv :: l) = String.eqb (Key kv) k || has_key k l.
Proof. reflexivity. Qed.

(** X21. The three SDK attributes of the built resource are those of the
    builder, whatever the environment says about these keys: only a
    non-empty resource attribute of the caller can replace them. *)
Theorem sdk_identity_in_resource
    (X : Collaborators) (c : Config.t) (w : World) :
  (forall k v,
     In k ["telemetry.sdk.name"; "telemetry.sdk.language"; "telemetry.sdk.version"] ->
     In (k, v) (Config.resourceAttributes c) -> v = "") ->
  exists r w',
    newResource X c w = Ret r w'
    /\ resource_get (Some r) "telemetry.sdk.name" = Some "cfobservability"
    /\ resource_get (Some r) "telemetry.sdk.language" = Some "go"
    /\ resource_get (Some r) "telemetry.sdk.version" = Some (version X).
Proof.
  intro Hcaller.
  destruct (newResource_run X c w) as [w' [Hrun _]].
  exists (resource_New (resource_attributes_spec X c)), w'. split; [exact Hrun|].
  unfold resource_attributes_spec, identity_attributes.
  set (tail := (if len0 (Config.ServiceName c) then [] else _) ++ _).
  assert (Hrest : forall k,
            In k ["telemetry.sdk.name"; "telemetry.sdk.language"; "telemetry.sdk.version"] ->
            has_key k (tail ++ caller_attributes c ++ detected_hostname X c) = false).
  { intros k Hk. rewrite !has_key_app.
    rewrite (caller_attributes_key c k (fun v => Hcaller k v Hk)).
    rewrite detected_hostname_key
      by (intros ->; cbn in Hk; intuition discriminate).
    unfold tail. rewrite identity_tail_key; [reflexivity| |];
      intros ->; cbn in Hk; intuition discriminate. }
  rewrite <- !app_assoc. cbn [app].
  set (rest := tail ++ caller_attributes c ++ detected_hostname X c) in *.
  split; [|split].
  - apply resource_New_last_wins; [discriminate|].
    rewrite !has_key_cons, Hrest by (cbn; auto). reflexivity.
  - change (attrs (resource_Environment X)
            ++ KV "telemetry.sdk.name" "cfobservability"
               :: KV "telemetry.sdk.language" "go"
               :: KV "telemetry.sdk.version" (version X) :: rest)
      with (attrs (resource_Environment X)
            ++ [KV "telemetry.sdk.name" "cfobservability"]
            ++ KV "telemetry.sdk.language" "go"
               :: KV "telemetry.sdk.version" (version X) :: rest).
    rewrite app_assoc.
    apply resource_New_last_wins; [discriminate|].
    rewrite !has_key_cons, Hrest by (cbn; auto). reflexivity.
  - change (attrs (resource_Environment X)
            ++ KV "telemetry.sdk.name" "cfobservability"
               :: KV "telemetry.sdk.language" "go"
               :: KV "telemetry.sdk.version" (version X) :: rest)
      with (attrs (resource_Environment X)
            ++ [KV "telemetry.sdk.name" "cfobservability";
                KV "telemetry.sdk.language" "go"]
            ++ KV "telemetry.sdk.version" (version X) :: rest).
    rewrite app_assoc.
    apply resource_New_last_wins; [discriminate|].
    apply Hrest. cbn. auto.
Qed.

Lemma sdk_identity_in_resource_witness :
  exists r w',
    newResource
      (mkCollaborators "0.1.0" (env_defaults, None)
         (mkResource [KV "telemetry.sdk.language" "cobol"]) ("build-host", None)
         (fun _ _ _ => None) (fun _ _ _ => (Some 7, None))
         (fun _ _ _ => None) (fun _ _ _ => None) (fun _ _ _ => None))
      (set_ServiceName "billing" env_defaults) fresh_world = Ret r w'
    /\ resource_get (Some r) "telemetry.sdk.name" = Some "cfobservability"
    /\ resource_get (Some r) "telemetry.sdk.language" = Some "go"
    /\ resource_get (Some r) "telemetry.sdk.version" = Some "0.1.0".
Proof.
  apply (sdk_identity_in_resource
           (mkCollaborators "0.1.0" (env_defaults, None)
              (mkResource [KV "telemetry.sdk.language" "cobol"]) ("build-host", None)
              (fun _ _ _ => None) (fun _ _ _ => (Some 7, None))
              (fun _ _ _ => None) (fun _ _ _ => None) (fun _ _ _ => None))
           (set_ServiceName "billing" env_defaults) fresh_world).
  simpl. intros k v _ [].
Defined.

(** X22. A non-empty host name of the environment is kept: without a
    non-empty host name among the caller's attributes, [os.Hostname] plays
    no part, nothing is logged, and the built resource holds the host name
    of the environment. *)
Theorem environment_hostname_is_kept
    (X : Collaborators) (c : Config.t) (w : World) (v : string) :
  resource_wf (Some (resource_Environment X)) ->
  In (KV "host.name" v) (attrs (resource_Environment X)) ->
  v <> "" ->
  (forall v', In ("host.name", v') (Config.resourceAttributes c) -> v' = "") ->
  newResource X c w
  = Ret (resource_New (attrs (resource_Environment X)
                       ++ identity_attributes X c ++ caller_attributes c)) w
  /\ resource_get
       (Some (resource_New (attrs (resource_Environment X)
                            ++ identity_attributes X c ++ caller_attributes c)))
       "host.name" = Some v.
Proof.
  intros Hwf Hin Hv Hcaller.
  assert (Hgiven : hostname_given X c = true).
  { unfold hostname_given. apply orb_true_iff. left.
    apply existsb_exists. exists (KV "host.name" v). split; [exact Hin|].
    cbn [Key Value]. destruct (len0 v) eqn:E; [now apply len0_empty in E|].
    reflexivity. }
  split.
  - unfold newResource, bind. rewrite newResource_attributes_run, Hgiven.
    unfold resource_attributes_spec, detected_hostname. rewrite Hgiven.
    now rewrite app_nil_r.
  - destruct (in_split _ _ Hin) as [e1 [e2 He]].
    unfold resource_wf, Attributes in Hwf. rewrite He, map_app in Hwf.
    cbn [map Key] in Hwf.
    pose proof (NoDup_remove_2 _ _ _ Hwf) as Hnotin.
    assert (H2 : has_key "host.name" e2 = false).
    { apply has_key_false. intro H. apply Hnotin, in_or_app. tauto. }
    rewrite He, <- app_assoc. cbn [app].
    apply resource_New_last_wins; [discriminate|].
    rewrite !has_key_app, H2, (caller_attributes_key c _ Hcaller).
    unfold identity_attributes. rewrite has_key_app.
    rewrite identity_tail_key by discriminate. reflexivity.
Qed.

Lemma environment_hostname_is_kept_witness :
  resource_get
    (Some (resource_New
             (attrs (resource_Environment hostless)
              ++ identity_attributes hostless (set_ServiceName "billing" env_defaults)
              ++ caller_attributes (set_ServiceName "billing" env_defaults))))
    "host.name" = Some "from-env".
Proof.
  apply (environment_hostname_is_kept hostless
           (set_ServiceName "billing" env_defaults) fresh_world "from-env").
  - unfold resource_wf. simpl. repeat constructor. simpl. tauto.
  - simpl. auto.
  - discriminate.
  - simpl. intros v' [].
Defined.

(** ** What every returned launcher satisfies *)

Lemma run_setups_config (setups : list setupFunc) (c : Config.t)
    (ls0 ls : Launcher) (w w' : World) :
  run_setups setups c ls0 w = Ret ls w' ->
  config ls = config ls0
  /\ List.length (shutdownFuncs ls)
     <= List.length (shutdownFuncs ls0) + List.length setups.
Proof.
  revert ls0 w. induction setups as [|setup rest IH]; intros ls0 w H.
  - cbn in H. inversion H; subst. cbn. split; [reflexivity | lia].
  - rewrite run_setups_cons in H.
    destruct (setup c w) as [r w1|msg w1]; [|discriminate H].
    destruct (snd r); [discriminate H|].
    destruct (fst r) as [shutdown|].
    + apply IH in H. cbn [config shutdownFuncs] in H.
      rewrite length_app in H. cbn [List.length] in *. split; [tauto | lia].
    + apply IH in H. cbn [List.length]. split; [tauto | lia].
Qed.

(** X23. A launcher that [ConfigureOpentelemetry] returns holds a
    configuration that validates, whose header map is not nil and whose
    resource is set with distinct keys, and it holds at most two shutdown
    functions. *)
Theorem returned_launcher_invariants
    (X : Collaborators) (opts : list Option) (w w2 : World) (ls : Launcher) :
  ConfigureOpentelemetry X opts w = Ret ls w2 ->
  validateConfiguration (config ls) = None
  /\ Config.Headers (config ls) <> None
  /\ Config.Resource (config ls) <> None
  /\ resource_wf (Config.Resource (config ls))
  /\ List.length (shutdownFuncs ls) <= 2.
Proof.
  intro H.
  destruct (newConfig_run X opts w) as [w1 [_ [_ Hnew]]].
  destruct (snd (envconfig_Process X)) as [e|].
  - unfold ConfigureOpentelemetry, bind at 1 in H. rewrite Hnew in H. discriminate H.
  - set (c := set_Resource _ _) in Hnew.
    destruct (validateConfiguration c) as [err|] eqn:Hv.
    + unfold ConfigureOpentelemetry, bind at 1 in H. rewrite Hnew in H.
      destruct (default_Headers_fields c) as [_ [_ [_ [_ [_ Hv']]]]].
      unfold bind in H. rewrite Hv', Hv in H.
      destruct (String.eqb (Config.LogLevel c) "debug"); discriminate H.
    + rewrite (ConfigureOpentelemetry_run X opts w w1 c Hnew Hv) in H.
      apply run_setups_config in H. cbn [config shutdownFuncs List.length] in H.
      destruct H as [Hcfg Hlen]. rewrite Hcfg.
      destruct (default_Headers_fields c) as [_ [_ [_ [_ [_ Hv']]]]].
      split; [now rewrite Hv'|].
      unfold default_Headers.
      destruct (Config.Headers c) eqn:Hh; cbn [set_Headers Config.Headers Config.Resource];
        (split; [congruence|]); (split; [discriminate|]);
        (split; [apply resource_New_wf | exact Hlen]).
Qed.

Lemma returned_launcher_invariants_witness :
  validateConfiguration
    (default_Headers
       (set_Resource
          (Some (resource_New
                   [KV "telemetry.sdk.name" "cfobservability";
                    KV "telemetry.sdk.language" "go";
                    KV "telemetry.sdk.version" "0.1.0";
                    KV "service.name" "billing";
                    KV "host.name" "build-host"]))
          (set_ServiceName "billing"
             (set_errorHandler (Some defaultHandler)
                (set_context Background
                   (set_BatchTimeout 5000000000 env_traces_only))))))
  = None.
Proof.
  apply (returned_launcher_invariants traces_only [WithServiceName "billing"]
           fresh_world
           (mkWorld
              (Some (mkTP sample_bsp
                       (Some (resource_New
                                [KV "telemetry.sdk.name" "cfobservability";
                                 KV "telemetry.sdk.language" "go";
                                 KV "telemetry.sdk.version" "0.1.0";
                                 KV "service.name" "billing";
                                 KV "host.name" "build-host"]))))
              (Some [TraceContext; Baggage]) (Some defaultHandler)
              [(DebugLevel, "metrics are disabled by configuration: no endpoint set")]
              [Call_newTraceExporter Background sample_exporter])
           (mkLauncher
              (default_Headers
                 (set_Resource
                    (Some (resource_New
                             [KV "telemetry.sdk.name" "cfobservability";
                              KV "telemetry.sdk.language" "go";
                              KV "telemetry.sdk.version" "0.1.0";
                              KV "service.name" "billing";
                              KV "host.name" "build-host"]))
                    (set_ServiceName "billing"
                       (set_errorHandler (Some defaultHandler)
                          (set_context Background
                             (set_BatchTimeout 5000000000 env_traces_only))))))
              [TraceShutdown sample_bsp sample_exporter])).
  reflexivity.
Defined.
